(** * The slider interaction controller of react-md ([useSliderControls])

    A shallow embedding of
    [packages/form/src/slider/useSliderControls.ts] and of its earlier
    variant (the copy whose [VALID_KEYS] table has the two page keys
    commented out).

    Conventions of the embedding:
    - a JavaScript [number] holding a coordinate or a slider value is an
      exact rational ([Q]); IEEE-754 rounding, [NaN] and the infinities
      are not modelled;
    - [null] is [None];
    - React state ([useState]) is passed explicitly as a [HookState];
      a handler returns the next state together with the list of the
      observable calls it made, in source order;
    - DOM elements are compared by identity ([===]), modelled by a node
      number. *)

From Stdlib Require Import QArith Qabs Qround Qminmax ZArith List String Bool Lia.
Import ListNotations.

Local Open Scope Q_scope.

(** ** Numbers *)

(** [a < b] on numbers, as a boolean. *)
Definition Qltb (a b : Q) : bool := negb (Qle_bool b a).

(** ** Data model ([./types]) *)

(** [type ThumbIndex = 0 | 1]. *)
Inductive ThumbIndex : Set := Thumb0 | Thumb1.

(** [type SliderThumbIndex = ThumbIndex | null]. *)
Definition SliderThumbIndex : Set := option ThumbIndex.

(** [type SliderDraggingBy = "mouse" | "touch" | null]. *)
Inductive DragModality : Set := Mouse | Touch.
Definition SliderDraggingBy : Set := option DragModality.

Definition ThumbIndex_eqb (a b : ThumbIndex) : bool :=
  match a, b with
  | Thumb0, Thumb0 | Thumb1, Thumb1 => true
  | _, _ => false
  end.

(** [draggingIndex !== index] for a [SliderThumbIndex] against a
    [ThumbIndex]. *)
Definition indexDiffers (d : SliderThumbIndex) (i : ThumbIndex) : bool :=
  match d with
  | None => true
  | Some j => negb (ThumbIndex_eqb j i)
  end.

(** The part of a [DOMRect] the controller reads. *)
Record DOMRect : Set := {
  rect_x : Q; rect_y : Q;
  rect_left : Q; rect_top : Q;
  rect_width : Q; rect_height : Q
}.

(** An [HTMLSpanElement]: its identity, its [role] attribute and what
    [getBoundingClientRect()] returns for it. *)
Record Element : Set := {
  node : nat;
  role : option string;
  getBoundingClientRect : DOMRect
}.

(** [a === b] on elements that may be [null]. *)
Definition sameElement (a b : option Element) : bool :=
  match a, b with
  | None, None => true
  | Some p, Some q => Nat.eqb (node p) (node q)
  | _, _ => false
  end.

(** The three [useRef] cells. *)
Record Refs : Set := {
  trackRef : option Element;
  thumb1Ref : option Element;
  thumb2Ref : option Element
}.

(** The modifier flags shared by mouse, touch and keyboard events. *)
Record Modifiers : Set := {
  altKey : bool; ctrlKey : bool; metaKey : bool; shiftKey : bool
}.

Definition anyModifier (m : Modifiers) : bool :=
  altKey m || ctrlKey m || metaKey m || shiftKey m.

Record TouchPoint : Set := { touch_clientX : Q; touch_clientY : Q }.

(** What a [SliderDragEvent] can be at run time.  A touch event carries
    [changedTouches], which the platform never delivers empty. *)
Inductive EventShape : Set :=
| MouseShape (button : Z) (clientX clientY : Q)
| TouchShape (changedTouches0 : TouchPoint) (changedTouchesRest : list TouchPoint)
| OtherShape.

Record SliderDragEvent : Set := {
  drag_mods : Modifiers;
  drag_shape : EventShape
}.

(** Modelled from the spec: the type guards [isMouseEvent] and
    [isTouchEvent] of [./utils] (a sibling module of the hook); a
    "qualifying mouse" event is one of mouse shape, a "touch event" one of
    touch shape. *)
Definition isMouseEvent (e : SliderDragEvent) : bool :=
  match drag_shape e with MouseShape _ _ _ => true | _ => false end.

(** Modelled from the spec: the type guard [isTouchEvent] of [./utils],
    as above. *)
Definition isTouchEvent (e : SliderDragEvent) : bool :=
  match drag_shape e with TouchShape _ _ => true | _ => false end.

(** [event.button !== 0], read only under [isMouseEvent(event)]. *)
Definition buttonIsNotPrimary (e : SliderDragEvent) : bool :=
  match drag_shape e with
  | MouseShape b _ _ => negb (Z.eqb b 0)
  | _ => false
  end.

(** The event a thumb receives on key-down.  [key_targetPath] is
    [event.target] followed by its ancestors, innermost first; it is what
    [Element.closest] walks. *)
Record KeyboardEvent : Set := {
  key : string;
  key_mods : Modifiers;
  currentTarget : Element;
  key_targetPath : list Element
}.

(** The value model ([controls]): a single number or a pair. *)
Inductive SliderValue : Set :=
| SingleValue (value : Q)
| RangeValue (thumb1Value thumb2Value : Q).

(** Modelled from the spec: the type guard [isRangeSlider] of [./utils]
    (a sibling module of the hook); the variant is decided by the shape
    of the value. *)
Definition isRangeSlider (c : SliderValue) : bool :=
  match c with RangeValue _ _ => true | SingleValue _ => false end.

(** The six stepping primitives of the value model. *)
Inductive StepOp : Set :=
| Increment | Decrement | Minimum | Maximum | IncrementJump | DecrementJump.

(** The argument of [setValue]: a literal or a function of the previous
    pair. *)
Inductive SetValueArg : Type :=
| Literal (v : Q)
| Updater (f : Q * Q -> Q * Q).

(** The calls a handler makes that are visible outside the hook. *)
Inductive Effect : Type :=
| PreventDefault
| StopPropagation
| Focus (n : nat)
| SetValue (a : SetValueArg)
| StepCall (op : StepOp) (index : option ThumbIndex)
| CallerOnKeyDown (e : KeyboardEvent)
| CallerOnMouseDown (e : SliderDragEvent)
| CallerOnTouchStart (e : SliderDragEvent).

(** The options of [useSliderControls] that the handlers read.  The three
    caller handlers are recorded by whether they were supplied. *)
Record SliderControlsOptions : Set := {
  min : Q; max : Q; step : Q;
  disabled : bool;
  vertical : bool;
  isRtl : bool;
  animationDuration : nat;
  onKeyDown : bool;
  onMouseDown : bool;
  onTouchStart : bool
}.

(** The three [useState] cells. *)
Record HookState : Set := {
  dragging : bool;
  draggingIndex : SliderThumbIndex;
  draggingBy : SliderDraggingBy
}.

Definition initialHookState : HookState :=
  {| dragging := false; draggingIndex := None; draggingBy := None |}.

(** ** The geometry resolver *)

Record SliderDragValues : Set := {
  dv_min : Q; dv_max : Q; dv_step : Q;
  dv_vertical : bool;
  dv_clientX : Q; dv_clientY : Q;
  dv_left : Q; dv_top : Q; dv_height : Q; dv_width : Q;
  dv_isRtl : bool;
  dv_minValue : Q; dv_maxValue : Q
}.

(** Clamp [v] into [[lo, hi]]. *)
Definition clamp (lo hi v : Q) : Q := Qmin (Qmax v lo) hi.

(** Round half up to an integer. *)
Definition roundHalfUp (v : Q) : Z := Qfloor (v + (1 # 2)).

(** Modelled from the spec: the first steps of [getDragValue] of
    [./utils] (a sibling module of the hook), before the containment in
    [[minValue, maxValue]]: project the pointer on the primary axis and
    normalise (vertical axis inverted, horizontal axis flipped under
    right-to-left), clamp the fraction to [[0, 1]], map it linearly into
    [[min, max]], and snap to the nearest multiple of [step] from [min]
    (round half up). *)
Definition resolvePointer (o : SliderDragValues) : Q :=
  let along :=
    if dv_vertical o
    then (dv_clientY o - dv_top o) / dv_height o
    else (dv_clientX o - dv_left o) / dv_width o in
  let fraction :=
    if dv_vertical o || dv_isRtl o then 1 - along else along in
  let clamped := clamp 0 1 fraction in
  let linear := dv_min o + clamped * (dv_max o - dv_min o) in
  dv_min o + inject_Z (roundHalfUp ((linear - dv_min o) / dv_step o)) * dv_step o.

(** Modelled from the spec: [getDragValue] of [./utils] (a sibling
    module of the hook), following the three steps of the geometry
    resolver: the pointer is resolved to a stepped value of [[min, max]]
    as above, and that value is clamped to [[minValue, maxValue]]. *)
Definition getDragValue (o : SliderDragValues) : Q :=
  clamp (dv_minValue o) (dv_maxValue o) (resolvePointer o).

(** ** The drag handler *)

(** The guard at the top of [drag]. *)
Definition dragRejected (o : SliderControlsOptions) (r : Refs)
    (e : SliderDragEvent) : bool :=
  altKey (drag_mods e) || ctrlKey (drag_mods e) || metaKey (drag_mods e)
  || shiftKey (drag_mods e)
  || disabled o
  || match trackRef r with None => true | Some _ => false end
  || match thumb1Ref r with None => true | Some _ => false end
  || (isMouseEvent e && buttonIsNotPrimary e)
  || (negb (isMouseEvent e) && negb (isTouchEvent e)).

(** [clientX] and [clientY]: from the event itself for a mouse event, from
    [changedTouches[0]] otherwise. *)
Definition pointerOf (e : SliderDragEvent) : Q * Q :=
  match drag_shape e with
  | MouseShape _ cx cy => (cx, cy)
  | TouchShape t _ => (touch_clientX t, touch_clientY t)
  | OtherShape => (0, 0)
  end.

(** The computation of [index] in [drag]. *)
Definition selectThumb (vert : bool) (current : SliderThumbIndex)
    (slider1 : Element) (slider2 : option Element) (clientX clientY : Q)
    : ThumbIndex :=
  match slider2 with
  | None => Thumb0
  | Some s2 =>
    match current with
    | None =>
      let x1 := rect_x (getBoundingClientRect slider1) in
      let x2 := rect_x (getBoundingClientRect s2) in
      let y1 := rect_y (getBoundingClientRect slider1) in
      let y2 := rect_y (getBoundingClientRect s2) in
      if vert
      then if Qltb (Qabs (clientY - y1)) (Qabs (clientY - y2)) then Thumb0 else Thumb1
      else if Qltb (Qabs (clientX - x1)) (Qabs (clientX - x2)) then Thumb0 else Thumb1
    | Some i => i
    end
  end.

(** [slider = index === 0 ? slider1 : slider2], left at [slider1] when
    there is no second thumb. *)
Definition sliderOf (index : ThumbIndex) (slider1 : Element)
    (slider2 : option Element) : Element :=
  match slider2, index with
  | Some s2, Thumb1 => s2
  | _, _ => slider1
  end.

Definition dragOptions (o : SliderControlsOptions) (track : Element)
    (clientX clientY : Q) : SliderDragValues :=
  let r := getBoundingClientRect track in
  {| dv_min := min o; dv_max := max o; dv_step := step o;
     dv_vertical := vertical o;
     dv_clientX := clientX; dv_clientY := clientY;
     dv_left := rect_left r; dv_top := rect_top r;
     dv_height := rect_height r; dv_width := rect_width r;
     dv_isRtl := isRtl o;
     dv_minValue := min o; dv_maxValue := max o |}.

Definition withBounds (d : SliderDragValues) (lo hi : Q) : SliderDragValues :=
  {| dv_min := dv_min d; dv_max := dv_max d; dv_step := dv_step d;
     dv_vertical := dv_vertical d;
     dv_clientX := dv_clientX d; dv_clientY := dv_clientY d;
     dv_left := dv_left d; dv_top := dv_top d;
     dv_height := dv_height d; dv_width := dv_width d;
     dv_isRtl := dv_isRtl d;
     dv_minValue := lo; dv_maxValue := hi |}.

(** The function handed to [setValue] for a range slider. *)
Definition rangeUpdater (o : SliderControlsOptions) (options : SliderDragValues)
    (index : ThumbIndex) (prev : Q * Q) : Q * Q :=
  let '(thumb1Value, thumb2Value) := prev in
  let value :=
    getDragValue
      (withBounds options
         (match index with Thumb0 => min o | Thumb1 => thumb1Value end)
         (match index with Thumb1 => max o | Thumb0 => thumb2Value end)) in
  match index with
  | Thumb0 => (value, thumb2Value)
  | Thumb1 => (thumb1Value, value)
  end.

(** The thumb an accepted event is applied to. *)
Definition dragIndex (o : SliderControlsOptions) (r : Refs)
    (current : SliderThumbIndex) (e : SliderDragEvent) : ThumbIndex :=
  match thumb1Ref r with
  | Some slider1 =>
    let '(clientX, clientY) := pointerOf e in
    selectThumb (vertical o) current slider1 (thumb2Ref r) clientX clientY
  | None => Thumb0
  end.

(** [drag(event)].  [controls] is [controlsRef.current].  [seen] is the
    [draggingIndex] of the render in which this [drag] callback was
    created ([draggingIndex] is one of its [useCallback] dependencies);
    [st] holds the state cells that the setters write. *)
Definition drag (o : SliderControlsOptions) (r : Refs) (controls : SliderValue)
    (seen : SliderThumbIndex) (st : HookState) (e : SliderDragEvent)
    : HookState * list Effect :=
  if dragRejected o r e then (st, [])
  else
    match trackRef r, thumb1Ref r with
    | Some track, Some slider1 =>
      let '(clientX, clientY) := pointerOf e in
      let index :=
        selectThumb (vertical o) seen slider1 (thumb2Ref r) clientX clientY in
      let slider := sliderOf index slider1 (thumb2Ref r) in
      let changed := indexDiffers seen index in
      let options := dragOptions o track clientX clientY in
      ({| dragging := dragging st;
          draggingIndex := if changed then Some index else draggingIndex st;
          draggingBy := Some (if isMouseEvent e then Mouse else Touch) |},
       (if isTouchEvent e then [] else [PreventDefault])
       ++ [StopPropagation]
       ++ (if changed then [Focus (node slider)] else [])
       ++ [SetValue
             (if isRangeSlider controls
              then Updater (rangeUpdater o options index)
              else Literal (getDragValue options))])
    | _, _ => (st, [])
    end.

(** [stop()]. *)
Definition stop (st : HookState) : HookState :=
  {| dragging := false; draggingIndex := None; draggingBy := None |}.

(** [handleMouseDown(event)] and [handleTouchStart(event)], bound to the
    track: the caller's handler first, then [drag] unless a modality
    already owns the session. *)
Definition handleMouseDown (o : SliderControlsOptions) (r : Refs)
    (controls : SliderValue) (st : HookState) (e : SliderDragEvent)
    : HookState * list Effect :=
  let pre := if onMouseDown o then [CallerOnMouseDown e] else [] in
  match draggingBy st with
  | None =>
    let '(st', effs) := drag o r controls (draggingIndex st) st e in
    (st', pre ++ effs)
  | Some _ => (st, pre)
  end.

Definition handleTouchStart (o : SliderControlsOptions) (r : Refs)
    (controls : SliderValue) (st : HookState) (e : SliderDragEvent)
    : HookState * list Effect :=
  let pre := if onTouchStart o then [CallerOnTouchStart e] else [] in
  match draggingBy st with
  | None =>
    let '(st', effs) := drag o r controls (draggingIndex st) st e in
    (st', pre ++ effs)
  | Some _ => (st, pre)
  end.

(** ** The keyboard stepper *)

Local Open Scope string_scope.

Definition VALID_KEYS : list string :=
  ["ArrowDown"; "ArrowUp"; "ArrowLeft"; "ArrowRight";
   "Home"; "End"; "PageUp"; "PageDown"].

(** [keys.includes(key)]. *)
Definition includes (keys : list string) (k : string) : bool :=
  existsb (String.eqb k) keys.

(** The [switch (key)] of [handleKeyDown]: the stepping primitive called,
    if any. *)
Definition keySwitch (k : string) : option StepOp :=
  if (k =? "ArrowUp") || (k =? "ArrowRight") then Some Increment
  else if (k =? "ArrowDown") || (k =? "ArrowLeft") then Some Decrement
  else if k =? "Home" then Some Minimum
  else if k =? "End" then Some Maximum
  else if k =? "PageUp" then Some IncrementJump
  else if k =? "PageDown" then Some DecrementJump
  else None.

(** The index the primitives are bound to: none for a single-value
    slider, otherwise
    [event.currentTarget === thumb2Ref.current ? 1 : 0]. *)
Definition keyIndex (r : Refs) (controls : SliderValue) (e : KeyboardEvent)
    : option ThumbIndex :=
  if isRangeSlider controls
  then Some (if sameElement (Some (currentTarget e)) (thumb2Ref r)
             then Thumb1 else Thumb0)
  else None.

(** [handleKeyDown(event)], bound to each thumb.  It writes no state
    cell. *)
Definition handleKeyDown (o : SliderControlsOptions) (r : Refs)
    (controls : SliderValue) (e : KeyboardEvent) : list Effect :=
  (if onKeyDown o then [CallerOnKeyDown e] else [])
  ++
  if altKey (key_mods e) || ctrlKey (key_mods e) || metaKey (key_mods e)
     || shiftKey (key_mods e) || disabled o
     || negb (includes VALID_KEYS (key e))
  then []
  else
    let index := keyIndex r controls e in
    [PreventDefault; StopPropagation]
    ++ match keySwitch (key e) with
       | Some op => [StepCall op index]
       | None => []
       end.

(** *** The earlier variant of the hook *)

Module Variant.

(** The table with ["PageUp"] and ["PageDown"] commented out. *)
Definition VALID_KEYS : list string :=
  ["ArrowDown"; "ArrowUp"; "ArrowLeft"; "ArrowRight"; "Home"; "End"].

(** Its [switch (key)] has the four cases up to ["End"]. *)
Definition keySwitch (k : string) : option StepOp :=
  if (k =? "ArrowUp") || (k =? "ArrowRight") then Some Increment
  else if (k =? "ArrowDown") || (k =? "ArrowLeft") then Some Decrement
  else if k =? "Home" then Some Minimum
  else if k =? "End" then Some Maximum
  else None.

(** [target.closest('[role="slider"]')]: the first element with that
    role among the target and its ancestors, or [null]. *)
Definition closestSlider (path : list Element) : option Element :=
  find (fun el => match role el with
                  | Some a => a =? "slider"
                  | None => false
                  end) path.

(** [slider === thumb2Ref.current ? 1 : 0] with [slider] the closest
    slider of [event.target]. *)
Definition keyIndex (r : Refs) (controls : SliderValue) (e : KeyboardEvent)
    : option ThumbIndex :=
  if isRangeSlider controls
  then Some (if sameElement (closestSlider (key_targetPath e)) (thumb2Ref r)
             then Thumb1 else Thumb0)
  else None.

Definition handleKeyDown (o : SliderControlsOptions) (r : Refs)
    (controls : SliderValue) (e : KeyboardEvent) : list Effect :=
  (if onKeyDown o then [CallerOnKeyDown e] else [])
  ++
  if altKey (key_mods e) || ctrlKey (key_mods e) || metaKey (key_mods e)
     || shiftKey (key_mods e) || disabled o
     || negb (includes VALID_KEYS (key e))
  then []
  else
    let index := keyIndex r controls e in
    [PreventDefault; StopPropagation]
    ++ match keySwitch (key e) with
       | Some op => [StepCall op index]
       | None => []
       end.

End Variant.

Local Close Scope string_scope.

(** ** The value model *)

(** The stepping primitives of the value model, as the caller supplies
    them: what [increment(index)], [decrement(index)], ... do to the
    value. *)
Definition ValueModel : Type := StepOp -> option ThumbIndex -> SliderValue -> SliderValue.

(** Modelled from the spec: [setValue] of the value model (owned by the
    caller): it replaces the value by a literal, or by the
    image of the previous pair under the function it is given. *)
Definition applySetValue (a : SetValueArg) (c : SliderValue) : SliderValue :=
  match a, c with
  | Literal v, _ => SingleValue v
  | Updater f, RangeValue a b => let '(a', b') := f (a, b) in RangeValue a' b'
  | Updater _, SingleValue _ => c
  end.

(** The value after the calls of a handler have reached the value
    model. *)
Fixpoint applyEffects (vm : ValueModel) (effs : list Effect) (c : SliderValue)
    : SliderValue :=
  match effs with
  | [] => c
  | SetValue a :: rest => applyEffects vm rest (applySetValue a c)
  | StepCall op i :: rest => applyEffects vm rest (vm op i c)
  | _ :: rest => applyEffects vm rest c
  end.

(** Modelled from the spec: the contract of [minimum] and [maximum] on a
    single-value model (owned by the caller): Home snaps the value to
    [min] and End snaps it to [max]. *)
Definition SnapsToBounds (lo hi : Q) (vm : ValueModel) : Prop :=
  forall i v,
    vm Minimum i (SingleValue v) = SingleValue lo /\
    vm Maximum i (SingleValue v) = SingleValue hi.

(** One value model a caller could supply for a single-value slider,
    used in the examples: steps of [st], jumps of [jump], both kept
    inside [[lo, hi]]; Home gives [lo] and End gives [hi]. *)
Definition simpleValueModel (lo hi st jump : Q) : ValueModel :=
  fun op _ c =>
    match c with
    | SingleValue v =>
      SingleValue
        match op with
        | Increment => clamp lo hi (v + st)
        | Decrement => clamp lo hi (v - st)
        | Minimum => lo
        | Maximum => hi
        | IncrementJump => clamp lo hi (v + jump)
        | DecrementJump => clamp lo hi (v - jump)
        end
    | RangeValue _ _ => c
    end.

(** ** Derived display values *)

(** Modelled from the spec: [getPercentage] of [@react-md/utils] (a
    sibling package of the hook): [(value - min) / (max - min)]. *)
Definition getPercentage (lo hi v : Q) : Q := (v - lo) / (hi - lo).

(** What the hook returns for display. *)
Record SliderControls : Set := {
  thumb1Value : Q;
  thumb1Percentage : string;
  thumb2Value : option Q;
  thumb2Percentage : option string;
  out_dragging : bool;
  out_draggingIndex : SliderThumbIndex
}.

Section Render.

(** How a template literal prints a number. *)
Variable numberToString : Q -> string.

(** [`${p * 100}%`]. *)
Definition percentOf (p : Q) : string :=
  (numberToString (p * 100) ++ "%")%string.

(** The tail of the hook body: the derived values of one render. *)
Definition render (o : SliderControlsOptions) (controls : SliderValue)
    (st : HookState) : SliderControls :=
  match controls with
  | RangeValue v1 v2 =>
    {| thumb1Value := v1;
       thumb1Percentage := percentOf (getPercentage (min o) (max o) v1);
       thumb2Value := Some v2;
       thumb2Percentage := Some (percentOf (getPercentage (min o) (max o) v2));
       out_dragging := dragging st;
       out_draggingIndex := draggingIndex st |}
  | SingleValue v =>
    {| thumb1Value := v;
       thumb1Percentage := percentOf (getPercentage (min o) (max o) v);
       thumb2Value := None;
       thumb2Percentage := None;
       out_dragging := dragging st;
       out_draggingIndex := draggingIndex st |}
  end.

End Render.

(** ** The hook in its host: effects, window listeners and the timer

    One step of the machine is one host event: the handler runs, the
    component re-renders, and the two [useEffect]s whose dependencies
    changed run (cleanup of the previous run first).  With the options
    fixed, the dependency lists [[draggingBy, drag, stop]] and
    [[draggingIndex, draggingBy, animationDuration]] both change exactly
    when the pair [(draggingIndex, draggingBy)] does, since [drag] is
    re-created exactly when [draggingIndex] changes. *)

(** The two callbacks the hook registers on [window].  A [drag] callback
    is identified by the [draggingIndex] it closed over. *)
Inductive Callback : Set :=
| DragCallback (seen : SliderThumbIndex)
| StopCallback.

Record Listener : Set := {
  listener_type : string;
  listener_callback : Callback
}.

(** A pending [window.setTimeout(() => setDragging(true), delay)]. *)
Record Timeout : Set := {
  timeout_id : nat;
  timeout_due : nat
}.

Record Machine : Set := {
  hook : HookState;
  model : SliderValue;
  listeners : list Listener;
  timeouts : list Timeout;
  nextTimeout : nat;
  clock : nat;
  committed : SliderThumbIndex * SliderDraggingBy;
  listenerCleanup : option (DragModality * SliderThumbIndex);
  timeoutCleanup : option nat
}.

Definition initialMachine (c : SliderValue) : Machine :=
  {| hook := initialHookState; model := c;
     listeners := []; timeouts := []; nextTimeout := 0; clock := 0;
     committed := (None, None);
     listenerCleanup := None; timeoutCleanup := None |}.

Definition SliderThumbIndex_eqb (a b : SliderThumbIndex) : bool :=
  match a, b with
  | None, None => true
  | Some i, Some j => ThumbIndex_eqb i j
  | _, _ => false
  end.

Definition SliderDraggingBy_eqb (a b : SliderDraggingBy) : bool :=
  match a, b with
  | None, None | Some Mouse, Some Mouse | Some Touch, Some Touch => true
  | _, _ => false
  end.

Definition Callback_eqb (a b : Callback) : bool :=
  match a, b with
  | DragCallback i, DragCallback j => SliderThumbIndex_eqb i j
  | StopCallback, StopCallback => true
  | _, _ => false
  end.

Definition Listener_eqb (a b : Listener) : bool :=
  String.eqb (listener_type a) (listener_type b)
  && Callback_eqb (listener_callback a) (listener_callback b).

(** [window.addEventListener(type, cb)]: an identical registration is not
    added twice. *)
Definition addEventListener (ty : string) (cb : Callback)
    (ls : list Listener) : list Listener :=
  let l := {| listener_type := ty; listener_callback := cb |} in
  if existsb (Listener_eqb l) ls then ls else ls ++ [l].

(** [window.removeEventListener(type, cb)]. *)
Definition removeEventListener (ty : string) (cb : Callback)
    (ls : list Listener) : list Listener :=
  let l := {| listener_type := ty; listener_callback := cb |} in
  filter (fun l' => negb (Listener_eqb l l')) ls.

(** The body of the first effect for a non-null [draggingBy]. *)
Definition attach (by_ : DragModality) (seen : SliderThumbIndex)
    (ls : list Listener) : list Listener :=
  match by_ with
  | Mouse =>
    addEventListener "mouseup" StopCallback
      (addEventListener "mousemove" (DragCallback seen) ls)
  | Touch =>
    addEventListener "touchend" StopCallback
      (addEventListener "touchmove" (DragCallback seen) ls)
  end.

(** The cleanup the first effect returns. *)
Definition detach (by_ : DragModality) (seen : SliderThumbIndex)
    (ls : list Listener) : list Listener :=
  match by_ with
  | Mouse =>
    removeEventListener "mouseup" StopCallback
      (removeEventListener "mousemove" (DragCallback seen) ls)
  | Touch =>
    removeEventListener "touchend" StopCallback
      (removeEventListener "touchmove" (DragCallback seen) ls)
  end.

(** [window.clearTimeout(id)]. *)
Definition clearTimeout (id : nat) (ts : list Timeout) : list Timeout :=
  filter (fun t => negb (Nat.eqb (timeout_id t) id)) ts.

Definition setDragging (b : bool) (st : HookState) : HookState :=
  {| dragging := b; draggingIndex := draggingIndex st;
     draggingBy := draggingBy st |}.

(** Re-render and flush the effects. *)
Definition commit (o : SliderControlsOptions) (m : Machine) : Machine :=
  let st := hook m in
  let deps := (draggingIndex st, draggingBy st) in
  if SliderThumbIndex_eqb (fst deps) (fst (committed m))
     && SliderDraggingBy_eqb (snd deps) (snd (committed m))
  then m
  else
    let ls :=
      match listenerCleanup m with
      | Some (by_, seen) => detach by_ seen (listeners m)
      | None => listeners m
      end in
    let ts :=
      match timeoutCleanup m with
      | Some id => clearTimeout id (timeouts m)
      | None => timeouts m
      end in
    let '(ls', lc) :=
      match draggingBy st with
      | None => (ls, None)
      | Some by_ => (attach by_ (draggingIndex st) ls, Some (by_, draggingIndex st))
      end in
    match draggingIndex st, draggingBy st with
    | None, None =>
      {| hook := st; model := model m; listeners := ls'; timeouts := ts;
         nextTimeout := nextTimeout m; clock := clock m; committed := deps;
         listenerCleanup := lc; timeoutCleanup := None |}
    | None, Some _ =>
      {| hook := setDragging false st; model := model m; listeners := ls';
         timeouts := ts;
         nextTimeout := nextTimeout m; clock := clock m; committed := deps;
         listenerCleanup := lc; timeoutCleanup := None |}
    | Some _, _ =>
      {| hook := st; model := model m; listeners := ls';
         timeouts :=
           ts ++ [{| timeout_id := nextTimeout m;
                     timeout_due := (clock m + animationDuration o)%nat |}];
         nextTimeout := S (nextTimeout m); clock := clock m; committed := deps;
         listenerCleanup := lc; timeoutCleanup := Some (nextTimeout m) |}
    end.

(** Unmounting runs the cleanup of both effects. *)
Definition unmount (m : Machine) : Machine :=
  {| hook := hook m; model := model m;
     listeners :=
       match listenerCleanup m with
       | Some (by_, seen) => detach by_ seen (listeners m)
       | None => listeners m
       end;
     timeouts :=
       match timeoutCleanup m with
       | Some id => clearTimeout id (timeouts m)
       | None => timeouts m
       end;
     nextTimeout := nextTimeout m; clock := clock m; committed := committed m;
     listenerCleanup := None; timeoutCleanup := None |}.

(** What the host can deliver. *)
Inductive Input : Set :=
| TrackMouseDown (e : SliderDragEvent)
| TrackTouchStart (e : SliderDragEvent)
| WindowEvent (type : string) (e : SliderDragEvent)
| ThumbKeyDown (e : KeyboardEvent)
| Elapse (t : nat).

(** The platform delivers mouse events under the mouse event types and
    touch events under the touch event types. *)
Definition wellTyped (i : Input) : bool :=
  match i with
  | TrackMouseDown e => isMouseEvent e
  | TrackTouchStart e => isTouchEvent e
  | WindowEvent ty e =>
    if String.eqb ty "mousemove" || String.eqb ty "mouseup" then isMouseEvent e
    else if String.eqb ty "touchmove" || String.eqb ty "touchend" then isTouchEvent e
    else true
  | ThumbKeyDown _ => true
  | Elapse _ => true
  end.

Definition withState (m : Machine) (st : HookState) (c : SliderValue) : Machine :=
  {| hook := st; model := c; listeners := listeners m; timeouts := timeouts m;
     nextTimeout := nextTimeout m; clock := clock m; committed := committed m;
     listenerCleanup := listenerCleanup m; timeoutCleanup := timeoutCleanup m |}.

Section Host.

Variable o : SliderControlsOptions.
Variable r : Refs.
Variable vm : ValueModel.

(** Calling one registered callback. *)
Definition invoke (cb : Callback) (e : SliderDragEvent)
    (acc : HookState * SliderValue) : HookState * SliderValue :=
  let '(st, c) := acc in
  match cb with
  | DragCallback seen =>
    let '(st', effs) := drag o r c seen st e in
    (st', applyEffects vm effs c)
  | StopCallback => (stop st, c)
  end.

(** The window calls every listener registered for the event type. *)
Definition dispatch (ty : string) (e : SliderDragEvent) (m : Machine)
    : HookState * SliderValue :=
  fold_left
    (fun acc l =>
       if String.eqb (listener_type l) ty
       then invoke (listener_callback l) e acc
       else acc)
    (listeners m) (hook m, model m).

(** Time passes: the timeouts that are due fire ([setDragging(true)])
    and leave the pending list. *)
Definition elapse (t : nat) (m : Machine) : Machine :=
  let clock' := (clock m + t)%nat in
  let isDue := fun x => Nat.leb (timeout_due x) clock' in
  {| hook := if existsb isDue (timeouts m)
             then setDragging true (hook m) else hook m;
     model := model m; listeners := listeners m;
     timeouts := filter (fun x => negb (isDue x)) (timeouts m);
     nextTimeout := nextTimeout m; clock := clock';
     committed := committed m;
     listenerCleanup := listenerCleanup m;
     timeoutCleanup := timeoutCleanup m |}.

Definition hostStep (m : Machine) (i : Input) : Machine :=
  match i with
  | TrackMouseDown e =>
    let '(st, effs) := handleMouseDown o r (model m) (hook m) e in
    commit o (withState m st (applyEffects vm effs (model m)))
  | TrackTouchStart e =>
    let '(st, effs) := handleTouchStart o r (model m) (hook m) e in
    commit o (withState m st (applyEffects vm effs (model m)))
  | WindowEvent ty e =>
    let '(st, c) := dispatch ty e m in
    commit o (withState m st c)
  | ThumbKeyDown e =>
    commit o
      (withState m (hook m)
         (applyEffects vm (handleKeyDown o r (model m) e) (model m)))
  | Elapse t => commit o (elapse t m)
  end.

Definition run (m : Machine) (ins : list Input) : Machine :=
  fold_left hostStep ins m.

(** The states the controller can be in: from a fresh mount, any
    sequence of well-typed host events. *)
Inductive reachable : Machine -> Prop :=
| reachable_mount (c : SliderValue) : reachable (initialMachine c)
| reachable_step (m : Machine) (i : Input) :
    reachable m -> wellTyped i = true -> reachable (hostStep m i).

(** The event that ends a session of the given modality. *)
Definition endsSession (by_ : DragModality) (i : Input) : bool :=
  match i, by_ with
  | WindowEvent ty _, Mouse => String.eqb ty "mouseup"
  | WindowEvent ty _, Touch => String.eqb ty "touchend"
  | _, _ => false
  end.

End Host.

(** Whether a timeout with [delay] still to go fires during the inputs. *)
Fixpoint delayElapses (delay : nat) (ins : list Input) : bool :=
  match ins with
  | [] => false
  | Elapse t :: rest => Nat.leb delay t || delayElapses (delay - t) rest
  | _ :: rest => delayElapses delay rest
  end.

(** The listeners the first effect registers for a modality. *)
Definition listenersFor (by_ : DragModality) (seen : SliderThumbIndex)
    : list Listener :=
  match by_ with
  | Mouse =>
    [ {| listener_type := "mousemove"; listener_callback := DragCallback seen |};
      {| listener_type := "mouseup"; listener_callback := StopCallback |} ]
  | Touch =>
    [ {| listener_type := "touchmove"; listener_callback := DragCallback seen |};
      {| listener_type := "touchend"; listener_callback := StopCallback |} ]
  end.

(** ** The shapes a mounted controller takes *)

(** No session: nothing registered, nothing pending. *)
Definition idleMachine (c : SliderValue) (n t : nat) : Machine :=
  {| hook := initialHookState; model := c;
     listeners := []; timeouts := []; nextTimeout := n; clock := t;
     committed := (None, None);
     listenerCleanup := None; timeoutCleanup := None |}.

(** A session of modality [by_] on thumb [i]: the listeners of that
    modality are registered, and the second effect has scheduled the
    timeout [id]; [ts] holds it while it is pending. *)
Definition sessionMachine (b : bool) (ts : list Timeout) (c : SliderValue)
    (n t : nat) (by_ : DragModality) (i : ThumbIndex) (id : nat) : Machine :=
  {| hook := {| dragging := b; draggingIndex := Some i; draggingBy := Some by_ |};
     model := c;
     listeners := listenersFor by_ (Some i);
     timeouts := ts; nextTimeout := n; clock := t;
     committed := (Some i, Some by_);
     listenerCleanup := Some (by_, Some i);
     timeoutCleanup := Some id |}.

(** The three phases of the drag session. *)
Inductive Phase (r : Refs) : Machine -> Prop :=
| Idle (c : SliderValue) (n t : nat) :
    Phase r (idleMachine c n t)
| Engaging (c : SliderValue) (n t : nat) (by_ : DragModality)
    (i : ThumbIndex) (id due : nat) :
    (i = Thumb1 -> thumb2Ref r <> None) ->
    Phase r (sessionMachine false
               [{| timeout_id := id; timeout_due := due |}] c n t by_ i id)
| Dragging (c : SliderValue) (n t : nat) (by_ : DragModality)
    (i : ThumbIndex) (id : nat) :
    (i = Thumb1 -> thumb2Ref r <> None) ->
    Phase r (sessionMachine true [] c n t by_ i id).

(** The inputs of a session of modality [by_] that is still going on:
    host events of the right type, none of them the end event. *)
Definition keepsSession (by_ : DragModality) (ins : list Input) : Prop :=
  Forall (fun i => wellTyped i = true /\ endsSession by_ i = false) ins.

(** ** [stop] without batching

    [stop] runs as a listener registered with [window.addEventListener].
    A React that batches state updates only inside its own event handlers
    renders after each of the three setters of [stop]; each render is
    followed by the effects whose dependencies it changed.  [hostStep]
    commits the three setters as one render; the definitions below follow
    the three renders one by one. *)





(** ** Vocabulary of the statements *)

(** The coordinate of a thumb that the selection compares: [x] of its
    bounding rectangle for a horizontal slider, [y] for a vertical one. *)
Definition thumbCoord (o : SliderControlsOptions) (el : Element) : Q :=
  if vertical o
  then rect_y (getBoundingClientRect el)
  else rect_x (getBoundingClientRect el).

(** The pointer's coordinate on the same axis. *)
Definition pointerCoord (o : SliderControlsOptions) (e : SliderDragEvent) : Q :=
  if vertical o then snd (pointerOf e) else fst (pointerOf e).

(** The value the pointer of an event stands for on the track, before
    any containment by a sibling thumb: the pointer's coordinates against
    the track's bounding rectangle, resolved over [[min, max]] with the
    slider's step, orientation and text direction. *)
Definition pointerValue (o : SliderControlsOptions) (r : Refs)
    (e : SliderDragEvent) : Q :=
  match trackRef r with
  | Some track =>
    let rect := getBoundingClientRect track in
    resolvePointer
      {| dv_min := min o; dv_max := max o; dv_step := step o;
         dv_vertical := vertical o;
         dv_clientX := fst (pointerOf e); dv_clientY := snd (pointerOf e);
         dv_left := rect_left rect; dv_top := rect_top rect;
         dv_height := rect_height rect; dv_width := rect_width rect;
         dv_isRtl := isRtl o;
         dv_minValue := min o; dv_maxValue := max o |}
  | None => 0
  end.

(** The recognised keys and the stepping primitive each stands for. *)
Inductive KeyBinding : string -> StepOp -> Prop :=
| bind_ArrowUp : KeyBinding "ArrowUp" Increment
| bind_ArrowRight : KeyBinding "ArrowRight" Increment
| bind_ArrowDown : KeyBinding "ArrowDown" Decrement
| bind_ArrowLeft : KeyBinding "ArrowLeft" Decrement
| bind_Home : KeyBinding "Home" Minimum
| bind_End : KeyBinding "End" Maximum
| bind_PageUp : KeyBinding "PageUp" IncrementJump
| bind_PageDown : KeyBinding "PageDown" DecrementJump.

(** ** Concrete sliders used in the examples *)

Module Scenario.

Definition noModifiers : Modifiers :=
  {| altKey := false; ctrlKey := false; metaKey := false; shiftKey := false |}.

Definition shiftHeld : Modifiers :=
  {| altKey := false; ctrlKey := false; metaKey := false; shiftKey := true |}.

(** A track from 0 to 400 pixels. *)
Definition track : Element :=
  {| node := 0; role := None;
     getBoundingClientRect :=
       {| rect_x := 0; rect_y := 0; rect_left := 0; rect_top := 0;
          rect_width := 400; rect_height := 20 |} |}.

Definition thumbAt (n : nat) (x : Q) : Element :=
  {| node := n; role := Some "slider"%string;
     getBoundingClientRect :=
       {| rect_x := x; rect_y := 0; rect_left := x; rect_top := 0;
          rect_width := 20; rect_height := 20 |} |}.

(** Thumbs at [x = 100] and [x = 300]. *)
Definition thumb1 : Element := thumbAt 1 100.
Definition thumb2 : Element := thumbAt 2 300.

Definition rangeRefs : Refs :=
  {| trackRef := Some track; thumb1Ref := Some thumb1; thumb2Ref := Some thumb2 |}.

Definition singleRefs : Refs :=
  {| trackRef := Some track; thumb1Ref := Some thumb1; thumb2Ref := None |}.

(** A horizontal, left-to-right slider over [[0, 100]] with step 1. *)
Definition options : SliderControlsOptions :=
  {| min := 0; max := 100; step := 1;
     disabled := false; vertical := false; isRtl := false;
     animationDuration := 200;
     onKeyDown := true; onMouseDown := false; onTouchStart := false |}.

(** A single-value slider over [[0, 10]]. *)
Definition options10 : SliderControlsOptions :=
  {| min := 0; max := 10; step := 1;
     disabled := false; vertical := false; isRtl := false;
     animationDuration := 200;
     onKeyDown := true; onMouseDown := false; onTouchStart := false |}.

Definition mouseAt (x : Q) : SliderDragEvent :=
  {| drag_mods := noModifiers; drag_shape := MouseShape 0 x 10 |}.

Definition shiftMouseAt (x : Q) : SliderDragEvent :=
  {| drag_mods := shiftHeld; drag_shape := MouseShape 0 x 10 |}.

Definition touchAt (x : Q) : SliderDragEvent :=
  {| drag_mods := noModifiers;
     drag_shape := TouchShape {| touch_clientX := x; touch_clientY := 10 |} [] |}.

Definition keyOn (el : Element) (k : string) : KeyboardEvent :=
  {| key := k; key_mods := noModifiers; currentTarget := el;
     key_targetPath := [el] |}.

Definition valueModel : ValueModel := simpleValueModel 0 10 1 5.

End Scenario.

(** ** Concrete controller states used in the examples *)

Module Demo.

(** A freshly mounted range slider with thumbs at 20 and 80. *)
Definition mounted : Machine := initialMachine (RangeValue 20 80).

(** The same slider after a mouse press next to the second thumb. *)
Definition pressed : Machine :=
  hostStep Scenario.options Scenario.rangeRefs Scenario.valueModel mounted
    (TrackMouseDown (Scenario.mouseAt 250)).

(** A single-value slider after a mouse press. *)
Definition pressedSingle : Machine :=
  hostStep Scenario.options10 Scenario.singleRefs Scenario.valueModel
    (initialMachine (SingleValue 3))
    (TrackMouseDown (Scenario.mouseAt 250)).

End Demo.

(** * Properties *)

(** ** Numbers *)

Lemma Qltb_true (a b : Q) : Qltb a b = true <-> a < b.
Proof.
  unfold Qltb. rewrite negb_true_iff. split.
  - intros H. apply Qnot_le_lt. intros Hle.
    apply Qle_bool_iff in Hle. congruence.
  - intros H. destruct (Qle_bool b a) eqn:E; [|reflexivity].
    apply Qle_bool_iff in E. exfalso. exact (Qlt_not_le _ _ H E).
Qed.

Lemma Qltb_false (a b : Q) : Qltb a b = false <-> b <= a.
Proof.
  unfold Qltb. rewrite negb_false_iff. apply Qle_bool_iff.
Qed.


Lemma clamp_between (lo hi v : Q) :
  lo <= hi -> lo <= clamp lo hi v /\ clamp lo hi v <= hi.
Proof.
  intros H. unfold clamp. split.
  - apply Q.min_glb; [apply Q.le_max_r | exact H].
  - apply Q.le_min_r.
Qed.

Lemma clamp_above (lo hi v : Q) : lo <= hi -> hi <= v -> clamp lo hi v == hi.
Proof.
  intros Hlh Hv. unfold clamp. apply Q.min_r.
  apply Qle_trans with v; [exact Hv|apply Q.le_max_l].
Qed.

Lemma clamp_below (lo hi v : Q) : lo <= hi -> v <= lo -> clamp lo hi v == lo.
Proof.
  intros Hlh Hv. unfold clamp.
  apply Qeq_trans with (Qmax v lo).
  - apply Q.min_l. apply Q.max_lub; [apply Qle_trans with lo; assumption|exact Hlh].
  - apply Q.max_r. exact Hv.
Qed.

Lemma clamp_inside (lo hi v : Q) : lo <= v -> v <= hi -> clamp lo hi v == v.
Proof.
  intros Hlo Hhi. unfold clamp.
  apply Qeq_trans with (Qmax v lo).
  - apply Q.min_l. apply Q.max_lub; [exact Hhi|apply Qle_trans with v; assumption].
  - apply Q.max_l. exact Hlo.
Qed.

(** ** The drag handler *)

Lemma dragRejected_false (o : SliderControlsOptions) (r : Refs) (e : SliderDragEvent) :
  dragRejected o r e = false ->
  anyModifier (drag_mods e) = false /\ disabled o = false /\
  (exists track slider1, trackRef r = Some track /\ thumb1Ref r = Some slider1) /\
  (isMouseEvent e = true \/ isTouchEvent e = true).
Proof.
  unfold dragRejected, anyModifier. intros H.
  destruct (altKey (drag_mods e)), (ctrlKey (drag_mods e)),
    (metaKey (drag_mods e)), (shiftKey (drag_mods e)), (disabled o);
    try discriminate H.
  destruct (trackRef r) as [t|]; [|discriminate H].
  destruct (thumb1Ref r) as [s1|]; [|discriminate H].
  repeat split.
  - now exists t, s1.
  - destruct (isMouseEvent e); [now left|].
    destruct (isTouchEvent e); [now right|discriminate H].
Qed.

(** After an accepted event the stored active thumb is the index that
    [drag] computed, when the callback saw the current state. *)
Lemma drag_sets_index (o : SliderControlsOptions) (r : Refs) (c : SliderValue)
    (st : HookState) (e : SliderDragEvent) :
  dragRejected o r e = false ->
  draggingIndex (fst (drag o r c (draggingIndex st) st e))
  = Some (dragIndex o r (draggingIndex st) e).
Proof.
  intros Hacc. unfold drag, dragIndex. rewrite Hacc.
  destruct (dragRejected_false _ _ _ Hacc) as (_ & _ & (t & s1 & Ht & Hs) & _).
  rewrite Ht, Hs. destruct (pointerOf e) as [cx cy]. cbn [fst draggingIndex].
  set (i := selectThumb _ _ _ _ _ _).
  unfold indexDiffers. destruct (draggingIndex st) as [j|]; [|reflexivity].
  destruct j, i; reflexivity.
Qed.

(** C1 (as amended): on a range slider with two thumbs and no active
    thumb, an accepted pointer-down selects thumb 0 when its coordinate is
    strictly closer to the pointer, thumb 1 when thumb 1 is strictly
    closer, and thumb 1 when the two are exactly equidistant. *)
Theorem nearest_thumb_selected :
  forall (o : SliderControlsOptions) (r : Refs) (c : SliderValue)
         (st : HookState) (e : SliderDragEvent) (s1 s2 : Element),
    dragRejected o r e = false ->
    thumb1Ref r = Some s1 ->
    thumb2Ref r = Some s2 ->
    draggingIndex st = None ->
    let d1 := Qabs (pointerCoord o e - thumbCoord o s1) in
    let d2 := Qabs (pointerCoord o e - thumbCoord o s2) in
    let selected := draggingIndex (fst (drag o r c (draggingIndex st) st e)) in
    (d1 < d2 -> selected = Some Thumb0) /\
    (d2 < d1 -> selected = Some Thumb1) /\
    (d1 == d2 -> selected = Some Thumb1).
Proof.
  intros o r c st e s1 s2 Hacc H1 H2 Hnone d1 d2 selected.
  assert (Hsel : selected = Some (if Qltb d1 d2 then Thumb0 else Thumb1)).
  { unfold selected. rewrite drag_sets_index by exact Hacc.
    unfold dragIndex. rewrite H1, H2, Hnone.
    unfold d1, d2, pointerCoord, thumbCoord, selectThumb.
    destruct (pointerOf e) as [cx cy]. cbn [fst snd].
    destruct (vertical o); reflexivity. }
  rewrite Hsel. repeat split; intros H.
  - apply Qltb_true in H. now rewrite H.
  - apply Qlt_le_weak, Qltb_false in H. now rewrite H.
  - assert (Hle : d2 <= d1) by (rewrite H; apply Qle_refl).
    apply Qltb_false in Hle. now rewrite Hle.
Qed.

Lemma nearest_thumb_selected_witness :
  draggingIndex
    (fst (drag Scenario.options Scenario.rangeRefs (RangeValue 20 80)
            None initialHookState (Scenario.mouseAt 150))) = Some Thumb0
  /\
  draggingIndex
    (fst (drag Scenario.options Scenario.rangeRefs (RangeValue 20 80)
            None initialHookState (Scenario.mouseAt 250))) = Some Thumb1.
Proof.
  split.
  - apply (proj1 (nearest_thumb_selected Scenario.options Scenario.rangeRefs
             (RangeValue 20 80) initialHookState (Scenario.mouseAt 150)
             Scenario.thumb1 Scenario.thumb2
             eq_refl eq_refl eq_refl eq_refl)).
    vm_compute. reflexivity.
  - apply (proj1 (proj2 (nearest_thumb_selected Scenario.options Scenario.rangeRefs
             (RangeValue 20 80) initialHookState (Scenario.mouseAt 250)
             Scenario.thumb1 Scenario.thumb2
             eq_refl eq_refl eq_refl eq_refl))).
    vm_compute. reflexivity.
Defined.

(** C1, the claim as written fails: with thumbs at [x = 100] and
    [x = 300], a pointer-down at [x = 200] is equidistant from both and
    selects thumb 1, not thumb 0. *)
Lemma equidistant_selects_thumb1 :
  Qabs (pointerCoord Scenario.options (Scenario.mouseAt 200)
        - thumbCoord Scenario.options Scenario.thumb1)
  == Qabs (pointerCoord Scenario.options (Scenario.mouseAt 200)
           - thumbCoord Scenario.options Scenario.thumb2)
  /\
  draggingIndex
    (fst (drag Scenario.options Scenario.rangeRefs (RangeValue 20 80)
            None initialHookState (Scenario.mouseAt 200))) = Some Thumb1
  /\
  draggingIndex
    (fst (drag Scenario.options Scenario.rangeRefs (RangeValue 20 80)
            None initialHookState (Scenario.mouseAt 200))) <> Some Thumb0.
Proof.
  repeat split.
  - vm_compute. discriminate.
Qed.

(** C3: an event with a modifier held, or arriving while the controller
    is disabled, or while the track or the first thumb is not mounted, or
    a mouse event with a button other than the primary one, or an event
    that is neither a mouse nor a touch event, leaves the three state
    cells as they were and makes no call at all: no [setValue], no
    [preventDefault], no [stopPropagation]. *)
Theorem rejected_drag_is_silent :
  forall (o : SliderControlsOptions) (r : Refs) (c : SliderValue)
         (seen : SliderThumbIndex) (st : HookState) (e : SliderDragEvent),
    (altKey (drag_mods e) = true \/ ctrlKey (drag_mods e) = true \/
     metaKey (drag_mods e) = true \/ shiftKey (drag_mods e) = true \/
     disabled o = true \/
     trackRef r = None \/ thumb1Ref r = None \/
     (exists b cx cy, drag_shape e = MouseShape b cx cy /\ b <> 0%Z) \/
     drag_shape e = OtherShape) ->
    drag o r c seen st e = (st, []).
Proof.
  intros o r c seen st e H.
  assert (Hrej : dragRejected o r e = true).
  { unfold dragRejected, isMouseEvent, isTouchEvent, buttonIsNotPrimary.
    destruct H as [H|[H|[H|[H|[H|[H|[H|[H|H]]]]]]]];
      try rewrite H; repeat rewrite ?orb_true_r, ?orb_true_l; try reflexivity.
    destruct H as (b & cx & cy & Hs & Hb). rewrite Hs.
    apply Z.eqb_neq in Hb. rewrite Hb. cbn.
    repeat rewrite ?orb_true_r, ?orb_true_l. reflexivity. }
  unfold drag. now rewrite Hrej.
Qed.

Lemma rejected_drag_is_silent_witness :
  drag Scenario.options Scenario.rangeRefs (RangeValue 20 80) None
    initialHookState (Scenario.shiftMouseAt 150)
  = (initialHookState, []).
Proof.
  apply rejected_drag_is_silent.
  right; right; right; left. reflexivity.
Defined.

(** ** The keyboard stepper *)

Lemma KeyBinding_includes (k : string) (op : StepOp) :
  KeyBinding k op -> includes VALID_KEYS k = true /\ keySwitch k = Some op.
Proof.
  intros H. destruct H; split; reflexivity.
Qed.

Lemma includes_KeyBinding (k : string) :
  includes VALID_KEYS k = true -> exists op, KeyBinding k op.
Proof.
  unfold includes, VALID_KEYS. cbn [existsb]. intros H.
  repeat (apply orb_true_iff in H; destruct H as [H|H]);
    try (apply String.eqb_eq in H; subst k; eexists; constructor).
  discriminate H.
Qed.

Lemma anyModifier_false (m : Modifiers) :
  anyModifier m = false ->
  altKey m = false /\ ctrlKey m = false /\ metaKey m = false /\ shiftKey m = false.
Proof.
  unfold anyModifier.
  destruct (altKey m), (ctrlKey m), (metaKey m), (shiftKey m);
    intros H; try discriminate H; repeat split.
Qed.

(** C4: with no modifier held and the controller enabled, a recognised
    key makes exactly one stepping call, the one bound to it, preceded by
    [preventDefault] and [stopPropagation] (and by the caller's own
    handler when there is one); on a single-value model whose [minimum]
    and [maximum] snap to the bounds, End leaves the value at [max] and
    Home at [min], whatever it was. *)
Theorem recognised_key_steps :
  forall (o : SliderControlsOptions) (r : Refs) (vm : ValueModel)
         (c : SliderValue) (e : KeyboardEvent) (op : StepOp),
    anyModifier (key_mods e) = false ->
    disabled o = false ->
    KeyBinding (key e) op ->
    handleKeyDown o r c e
    = (if onKeyDown o then [CallerOnKeyDown e] else [])
      ++ [PreventDefault; StopPropagation; StepCall op (keyIndex r c e)]
    /\
    (forall v,
        SnapsToBounds (min o) (max o) vm ->
        c = SingleValue v ->
        (key e = "End"%string ->
         applyEffects vm (handleKeyDown o r c e) c = SingleValue (max o)) /\
        (key e = "Home"%string ->
         applyEffects vm (handleKeyDown o r c e) c = SingleValue (min o))).
Proof.
  intros o r vm c e op Hmod Hen Hkey.
  assert (Heq : handleKeyDown o r c e
                = (if onKeyDown o then [CallerOnKeyDown e] else [])
                  ++ [PreventDefault; StopPropagation; StepCall op (keyIndex r c e)]).
  { unfold handleKeyDown.
    destruct (anyModifier_false _ Hmod) as (-> & -> & -> & ->).
    destruct (KeyBinding_includes _ _ Hkey) as [-> ->].
    rewrite Hen. reflexivity. }
  split; [exact Heq|].
  intros v Hsnap ->. rewrite Heq.
  destruct (Hsnap (keyIndex r (SingleValue v) e) v) as [Hmin Hmax].
  split; intros Hk; rewrite Hk in Hkey; inversion Hkey; subst op;
    destruct (onKeyDown o); cbn; assumption.
Qed.

Lemma recognised_key_steps_witness :
  applyEffects Scenario.valueModel
    (handleKeyDown Scenario.options10 Scenario.singleRefs (SingleValue 3)
       (Scenario.keyOn Scenario.thumb1 "End"))
    (SingleValue 3)
  = SingleValue 10.
Proof.
  refine (proj1 (proj2 (recognised_key_steps Scenario.options10 Scenario.singleRefs
                          Scenario.valueModel (SingleValue 3)
                          (Scenario.keyOn Scenario.thumb1 "End") Maximum
                          eq_refl eq_refl bind_End)
                   3 _ eq_refl) eq_refl).
  intros i v. split; reflexivity.
Defined.

(** C8: a key that is not recognised, or any key with a modifier held, or
    any key while the controller is disabled, reaches the caller's
    [onKeyDown] (when there is one) with the event as it came, and
    nothing else happens: no stepping call, no [preventDefault], no
    [stopPropagation]. *)
Theorem ignored_key_passes_through :
  forall (o : SliderControlsOptions) (r : Refs) (c : SliderValue)
         (e : KeyboardEvent),
    ((forall op, ~ KeyBinding (key e) op) \/
     anyModifier (key_mods e) = true \/
     disabled o = true) ->
    handleKeyDown o r c e = if onKeyDown o then [CallerOnKeyDown e] else [].
Proof.
  intros o r c e H. unfold handleKeyDown.
  assert (Hguard :
            altKey (key_mods e) || ctrlKey (key_mods e) || metaKey (key_mods e)
            || shiftKey (key_mods e) || disabled o
            || negb (includes VALID_KEYS (key e)) = true).
  { destruct H as [H|[H|H]].
    - destruct (includes VALID_KEYS (key e)) eqn:E.
      + destruct (includes_KeyBinding _ E) as [op Hop]. now destruct (H op).
      + apply orb_true_r.
    - unfold anyModifier in H. rewrite H. reflexivity.
    - rewrite H. rewrite orb_true_r. reflexivity. }
  rewrite Hguard. apply app_nil_r.
Qed.

Lemma ignored_key_passes_through_witness :
  handleKeyDown Scenario.options Scenario.rangeRefs (RangeValue 20 80)
    (Scenario.keyOn Scenario.thumb2 "Enter")
  = [CallerOnKeyDown (Scenario.keyOn Scenario.thumb2 "Enter")].
Proof.
  apply (ignored_key_passes_through Scenario.options Scenario.rangeRefs
           (RangeValue 20 80) (Scenario.keyOn Scenario.thumb2 "Enter")).
  left. intros op H. inversion H.
Defined.

(** *** The two versions of the handler *)

Lemma includes_variant (k : string) :
  includes VALID_KEYS k
  = includes Variant.VALID_KEYS k
    || String.eqb k "PageUp" || String.eqb k "PageDown".
Proof.
  unfold includes, VALID_KEYS, Variant.VALID_KEYS. cbn [existsb].
  repeat rewrite orb_false_r.
  repeat rewrite orb_assoc. reflexivity.
Qed.





(** With the key bound to a thumb that contains a nested element of role
    slider, the two versions also address different thumbs. *)
Example nested_slider_changes_target :
  let inner := Scenario.thumbAt 7 120 in
  let e := {| key := "ArrowUp"; key_mods := Scenario.noModifiers;
              currentTarget := Scenario.thumb2;
              key_targetPath := [inner; Scenario.thumb2] |} in
  keyIndex Scenario.rangeRefs (RangeValue 20 80) e = Some Thumb1 /\
  Variant.keyIndex Scenario.rangeRefs (RangeValue 20 80) e = Some Thumb0.
Proof.
  split; reflexivity.
Qed.

(** ** Range sliders: the sibling bounds the moved thumb *)

Lemma rangeUpdater_spec (o : SliderControlsOptions) (d : SliderDragValues)
    (index : ThumbIndex) (v1 v2 : Q) :
  match index with
  | Thumb0 =>
    snd (rangeUpdater o d index (v1, v2)) = v2 /\
    (min o <= v2 ->
     min o <= fst (rangeUpdater o d index (v1, v2)) /\
     fst (rangeUpdater o d index (v1, v2)) <= v2)
  | Thumb1 =>
    fst (rangeUpdater o d index (v1, v2)) = v1 /\
    (v1 <= max o ->
     v1 <= snd (rangeUpdater o d index (v1, v2)) /\
     snd (rangeUpdater o d index (v1, v2)) <= max o)
  end.
Proof.
  destruct index; cbn [rangeUpdater fst snd]; (split; [reflexivity|]);
    intros H; unfold getDragValue; cbn [dv_minValue dv_maxValue withBounds];
    apply clamp_between; exact H.
Qed.

Lemma applyEffects_app (vm : ValueModel) (xs ys : list Effect) (c : SliderValue) :
  applyEffects vm (xs ++ ys) c = applyEffects vm ys (applyEffects vm xs c).
Proof.
  revert c. induction xs as [|x xs IH]; intros c; [reflexivity|].
  destruct x; cbn; apply IH.
Qed.

(** The value an accepted drag leaves in a range model. *)
Lemma drag_range_value (o : SliderControlsOptions) (r : Refs) (vm : ValueModel)
    (seen : SliderThumbIndex) (st : HookState) (e : SliderDragEvent)
    (track : Element) (v1 v2 : Q) :
  dragRejected o r e = false ->
  trackRef r = Some track ->
  applyEffects vm (snd (drag o r (RangeValue v1 v2) seen st e)) (RangeValue v1 v2)
  = let p := rangeUpdater o
               (dragOptions o track (fst (pointerOf e)) (snd (pointerOf e)))
               (dragIndex o r seen e) (v1, v2) in
    RangeValue (fst p) (snd p).
Proof.
  intros Hacc Ht. unfold drag, dragIndex. rewrite Hacc, Ht.
  destruct (dragRejected_false _ _ _ Hacc) as (_ & _ & (t & s1 & _ & Hs) & _).
  rewrite Hs. destruct (pointerOf e) as [cx cy]. cbn [fst snd].
  rewrite !applyEffects_app.
  destruct (isTouchEvent e); destruct (indexDiffers _ _);
    cbn [app applyEffects applySetValue isRangeSlider];
    destruct (selectThumb (vertical o) seen s1 (thumb2Ref r) cx cy);
    reflexivity.
Qed.

(** The value handed back by the updater is the pointer's value clamped
    between the bounds of the active thumb. *)
Lemma rangeUpdater_pointer (o : SliderControlsOptions) (r : Refs)
    (e : SliderDragEvent) (track : Element) (index : ThumbIndex) (v1 v2 : Q) :
  trackRef r = Some track ->
  rangeUpdater o (dragOptions o track (fst (pointerOf e)) (snd (pointerOf e)))
    index (v1, v2)
  = match index with
    | Thumb0 => (clamp (min o) v2 (pointerValue o r e), v2)
    | Thumb1 => (v1, clamp v1 (max o) (pointerValue o r e))
    end.
Proof.
  intros Ht. unfold pointerValue. rewrite Ht. destruct index; reflexivity.
Qed.

(** C2: on a range slider, an accepted drag event moves only the active
    thumb: the sibling keeps its value, and the moved value is the value
    the pointer stands for, clamped between [min] and thumb 1's value
    when thumb 0 is active, between thumb 0's value and [max] when thumb
    1 is active.  The sub-range being non-empty, the moved value lies in
    it; it is the sibling's value when the pointer is at or beyond the
    sibling, the outer bound when the pointer is at or beyond that bound,
    and the pointer's own value in between. *)
Theorem range_drag_clamped_to_sibling :
  forall (o : SliderControlsOptions) (r : Refs) (vm : ValueModel)
         (st : HookState) (e : SliderDragEvent) (v1 v2 : Q),
    dragRejected o r e = false ->
    let result := drag o r (RangeValue v1 v2) (draggingIndex st) st e in
    let p := pointerValue o r e in
    exists a b,
      applyEffects vm (snd result) (RangeValue v1 v2) = RangeValue a b /\
      ((draggingIndex (fst result) = Some Thumb0 /\ b = v2 /\
        a = clamp (min o) v2 p /\
        (min o <= v2 ->
         (min o <= a /\ a <= v2) /\
         (v2 <= p -> a == v2) /\
         (p <= min o -> a == min o) /\
         (min o <= p -> p <= v2 -> a == p)))
       \/
       (draggingIndex (fst result) = Some Thumb1 /\ a = v1 /\
        b = clamp v1 (max o) p /\
        (v1 <= max o ->
         (v1 <= b /\ b <= max o) /\
         (max o <= p -> b == max o) /\
         (p <= v1 -> b == v1) /\
         (v1 <= p -> p <= max o -> b == p)))).
Proof.
  intros o r vm st e v1 v2 Hacc result p.
  destruct (dragRejected_false _ _ _ Hacc) as (_ & _ & (t & s1 & Ht & _) & _).
  unfold result.
  rewrite (drag_range_value o r vm _ st e t v1 v2 Hacc Ht).
  rewrite (drag_sets_index o r _ st e Hacc).
  cbv zeta.
  rewrite (rangeUpdater_pointer o r e t _ v1 v2 Ht). fold p.
  destruct (dragIndex o r (draggingIndex st) e); cbn [fst snd].
  - exists (clamp (min o) v2 p), v2. split; [reflexivity|]. left.
    split; [reflexivity|]. split; [reflexivity|]. split; [reflexivity|].
    intros Hne. split; [now apply clamp_between|].
    split; [now apply clamp_above|].
    split; [now apply clamp_below|]. apply clamp_inside.
  - exists v1, (clamp v1 (max o) p). split; [reflexivity|]. right.
    split; [reflexivity|]. split; [reflexivity|]. split; [reflexivity|].
    intros Hne. split; [now apply clamp_between|].
    split; [now apply clamp_above|].
    split; [now apply clamp_below|]. apply clamp_inside.
Qed.

Lemma range_drag_clamped_to_sibling_witness :
  exists a b,
    applyEffects Scenario.valueModel
      (snd (drag Scenario.options Scenario.rangeRefs (RangeValue 20 80)
              (Some Thumb0)
              {| dragging := false; draggingIndex := Some Thumb0;
                 draggingBy := Some Mouse |}
              (Scenario.mouseAt 360)))
      (RangeValue 20 80)
    = RangeValue a b /\
    pointerValue Scenario.options Scenario.rangeRefs (Scenario.mouseAt 360) == 90 /\
    b = 80 /\ a == 80.
Proof.
  destruct (range_drag_clamped_to_sibling Scenario.options Scenario.rangeRefs
              Scenario.valueModel
              {| dragging := false; draggingIndex := Some Thumb0;
                 draggingBy := Some Mouse |}
              (Scenario.mouseAt 360) 20 80 eq_refl)
    as (a & b & Heq & [(_ & Hb & _ & Hr) | (Hidx & _)]).
  - exists a, b. split; [exact Heq|]. split; [reflexivity|].
    split; [exact Hb|].
    assert (Hne : min Scenario.options <= 80) by (vm_compute; discriminate).
    destruct (Hr Hne) as (_ & Habove & _).
    apply Habove. vm_compute. discriminate.
  - vm_compute in Hidx. discriminate Hidx.
Defined.

(** The example of the specification: thumbs at [(20, 80)] over
    [[0, 100]]; dragging thumb 0 to the position of value 90 yields 80. *)
Example drag_past_sibling_stops_at_sibling :
  applyEffects Scenario.valueModel
    (snd (drag Scenario.options Scenario.rangeRefs (RangeValue 20 80)
            (Some Thumb0)
            {| dragging := false; draggingIndex := Some Thumb0;
               draggingBy := Some Mouse |}
            (Scenario.mouseAt 360)))
    (RangeValue 20 80)
  = RangeValue 80 80.
Proof.
  vm_compute. reflexivity.
Qed.

(** ** Derived display values *)

(** C10: on every render, whatever the drag state, each thumb's
    percentage string is the number
    [((value - min) / (max - min)) * 100] of the model's current value
    for that thumb followed by ["%"]; a range slider gets both strings, a
    single-value slider the first only.  With [min < max] that number
    [p] is the one with [p * (max - min) == (value - min) * 100]. *)
Theorem percentage_follows_value :
  forall (numberToString : Q -> string) (o : SliderControlsOptions)
         (c : SliderValue) (st : HookState),
    let out := render numberToString o c st in
    let pct := fun v : Q =>
      (numberToString (((v - min o) / (max o - min o)) * 100) ++ "%")%string in
    match c with
    | SingleValue v =>
      thumb1Value out = v /\ thumb2Value out = None
    | RangeValue v1 v2 =>
      thumb1Value out = v1 /\ thumb2Value out = Some v2
    end /\
    thumb1Percentage out = pct (thumb1Value out) /\
    thumb2Percentage out = option_map pct (thumb2Value out) /\
    (forall v, min o < max o ->
       ((v - min o) / (max o - min o)) * 100 * (max o - min o)
       == (v - min o) * 100).
Proof.
  intros numberToString o c st out pct.
  split; [destruct c; split; reflexivity|].
  split; [destruct c; reflexivity|].
  split; [destruct c; reflexivity|].
  intros v Hlt. field.
  intros Hz. apply (Qlt_irrefl (min o)).
  assert (Hm : max o == min o).
  { rewrite <- (Qplus_0_l (min o)), <- Hz. ring. }
  rewrite <- Hm at 2. exact Hlt.
Qed.

Lemma percentage_follows_value_witness :
  ((42 - min Scenario.options) / (max Scenario.options - min Scenario.options))
  * 100 * (max Scenario.options - min Scenario.options)
  == (42 - min Scenario.options) * 100.
Proof.
  apply (proj2 (proj2 (proj2 (percentage_follows_value
                                (fun _ => EmptyString) Scenario.options
                                (SingleValue 42) initialHookState)))).
  reflexivity.
Defined.

(** ** The drag session in its host *)

Lemma SliderThumbIndex_eqb_refl (a : SliderThumbIndex) :
  SliderThumbIndex_eqb a a = true.
Proof. destruct a as [[|]|]; reflexivity. Qed.

Lemma SliderDraggingBy_eqb_refl (a : SliderDraggingBy) :
  SliderDraggingBy_eqb a a = true.
Proof. destruct a as [[|]|]; reflexivity. Qed.

(** A render that leaves [(draggingIndex, draggingBy)] as committed runs
    no effect. *)
Lemma commit_same (o : SliderControlsOptions) (m : Machine) :
  committed m = (draggingIndex (hook m), draggingBy (hook m)) ->
  commit o m = m.
Proof.
  intros H. unfold commit. rewrite H. cbn [fst snd].
  now rewrite SliderThumbIndex_eqb_refl, SliderDraggingBy_eqb_refl.
Qed.

(** Entering a session from idle registers the listeners of the modality
    and schedules one timeout. *)
Lemma commit_start (o : SliderControlsOptions) (c c' : SliderValue) (n t : nat)
    (b : bool) (by_ : DragModality) (i : ThumbIndex) :
  commit o (withState (idleMachine c n t)
              {| dragging := b; draggingIndex := Some i; draggingBy := Some by_ |} c')
  = sessionMachine b
      [{| timeout_id := n; timeout_due := (t + animationDuration o)%nat |}]
      c' (S n) t by_ i n.
Proof. destruct by_; reflexivity. Qed.

(** Leaving a session removes its listeners and clears its timeout. *)
Lemma commit_stop (o : SliderControlsOptions) (c c' : SliderValue) (n t : nat)
    (b : bool) (ts : list Timeout) (by_ : DragModality) (i : ThumbIndex)
    (id : nat) (st : HookState) :
  clearTimeout id ts = [] ->
  commit o (withState (sessionMachine b ts c n t by_ i id) (stop st) c')
  = idleMachine c' n t.
Proof.
  intros Hts. unfold commit, withState, stop, sessionMachine, idleMachine.
  cbn -[clearTimeout]. rewrite Hts.
  destruct by_, i; reflexivity.
Qed.

Lemma dragIndex_thumb1 (o : SliderControlsOptions) (r : Refs)
    (e : SliderDragEvent) :
  dragIndex o r None e = Thumb1 -> thumb2Ref r <> None.
Proof.
  unfold dragIndex, selectThumb. intros H Hnone. rewrite Hnone in H.
  destruct (thumb1Ref r); [destruct (pointerOf e)|]; discriminate H.
Qed.

(** Inside a session the callback that is registered computes the active
    thumb again. *)
Lemma dragIndex_in_session (o : SliderControlsOptions) (r : Refs)
    (i : ThumbIndex) (e : SliderDragEvent) :
  (i = Thumb1 -> thumb2Ref r <> None) ->
  thumb1Ref r <> None ->
  dragIndex o r (Some i) e = i.
Proof.
  intros H2 H1. unfold dragIndex, selectThumb.
  destruct (thumb1Ref r); [|now destruct H1].
  destruct (pointerOf e). destruct (thumb2Ref r); [reflexivity|].
  destruct i; [reflexivity|]. now destruct H2.
Qed.

Lemma drag_in_session (o : SliderControlsOptions) (r : Refs) (c : SliderValue)
    (b : bool) (by_ : DragModality) (i : ThumbIndex) (e : SliderDragEvent) :
  (i = Thumb1 -> thumb2Ref r <> None) ->
  isMouseEvent e = match by_ with Mouse => true | Touch => false end ->
  fst (drag o r c (Some i)
         {| dragging := b; draggingIndex := Some i; draggingBy := Some by_ |} e)
  = {| dragging := b; draggingIndex := Some i; draggingBy := Some by_ |}.
Proof.
  intros H2 Hshape. unfold drag.
  destruct (dragRejected o r e) eqn:Hrej; [reflexivity|].
  destruct (dragRejected_false _ _ _ Hrej) as (_ & _ & (t & s1 & Ht & Hs) & _).
  assert (Hi : dragIndex o r (Some i) e = i).
  { apply dragIndex_in_session; [exact H2|]. rewrite Hs. discriminate. }
  unfold dragIndex in Hi. rewrite Ht, Hs. rewrite Hs in Hi.
  destruct (pointerOf e) as [cx cy]. rewrite Hi, Hshape. cbn.
  destruct i, by_; reflexivity.
Qed.

Lemma drag_from_idle (o : SliderControlsOptions) (r : Refs) (c : SliderValue)
    (st : HookState) (e : SliderDragEvent) :
  dragRejected o r e = false ->
  draggingIndex st = None ->
  fst (drag o r c None st e)
  = {| dragging := dragging st;
       draggingIndex := Some (dragIndex o r None e);
       draggingBy := Some (if isMouseEvent e then Mouse else Touch) |}.
Proof.
  intros Hacc Hnone. unfold drag, dragIndex. rewrite Hacc.
  destruct (dragRejected_false _ _ _ Hacc) as (_ & _ & (t & s1 & Ht & Hs) & _).
  rewrite Ht, Hs. destruct (pointerOf e) as [cx cy]. reflexivity.
Qed.

Lemma drag_rejected (o : SliderControlsOptions) (r : Refs) (c : SliderValue)
    (seen : SliderThumbIndex) (st : HookState) (e : SliderDragEvent) :
  dragRejected o r e = true -> drag o r c seen st e = (st, []).
Proof. intros H. unfold drag. now rewrite H. Qed.

Section HostSteps.

Variable o : SliderControlsOptions.
Variable r : Refs.
Variable vm : ValueModel.

(** A track handler in the idle phase: either the event is rejected and
    the controller stays idle, or a session starts. *)
Lemma track_down_from_idle (c : SliderValue) (n t : nat)
    (pre : list Effect) (e : SliderDragEvent) :
  let '(st, effs) := drag o r c None initialHookState e in
  let m' := commit o (withState (idleMachine c n t) st
                        (applyEffects vm (pre ++ effs) c)) in
  (exists c', m' = idleMachine c' n t) \/
  (exists c',
      dragRejected o r e = false /\
      m' = sessionMachine false
             [{| timeout_id := n; timeout_due := (t + animationDuration o)%nat |}]
             c' (S n) t (if isMouseEvent e then Mouse else Touch)
             (dragIndex o r None e) n).
Proof.
  destruct (dragRejected o r e) eqn:Hrej.
  - rewrite (drag_rejected _ _ _ _ _ _ Hrej). left.
    eexists. apply commit_same. reflexivity.
  - pose proof (drag_from_idle o r c initialHookState e Hrej eq_refl) as Hst.
    destruct (drag o r c None initialHookState e) as [st effs].
    cbn [fst] in Hst. subst st. right. eexists. split; [reflexivity|].
    apply commit_start.
Qed.

Lemma step_from_idle (c : SliderValue) (n t : nat) (inp : Input) :
  wellTyped inp = true ->
  (exists c' t', hostStep o r vm (idleMachine c n t) inp = idleMachine c' n t') \/
  (exists c' by_ i,
      (i = Thumb1 -> thumb2Ref r <> None) /\
      hostStep o r vm (idleMachine c n t) inp
      = sessionMachine false
          [{| timeout_id := n; timeout_due := (t + animationDuration o)%nat |}]
          c' (S n) t by_ i n).
Proof.
  intros Hwt. destruct inp as [e|e|ty e|e|dt].
  - unfold hostStep, handleMouseDown.
    cbn [hook model idleMachine draggingBy draggingIndex initialHookState].
    pose proof (track_down_from_idle c n t
                  (if onMouseDown o then [CallerOnMouseDown e] else []) e) as H.
    fold initialHookState.
    destruct (drag o r c None initialHookState e) as [st effs].
    destruct H as [[c' H]|[c' [Hacc H]]].
    + left. exists c', t. exact H.
    + right. do 3 eexists. split; [|exact H].
      intros Hi. exact (dragIndex_thumb1 o r e Hi).
  - unfold hostStep, handleTouchStart.
    cbn [hook model idleMachine draggingBy draggingIndex initialHookState].
    pose proof (track_down_from_idle c n t
                  (if onTouchStart o then [CallerOnTouchStart e] else []) e) as H.
    fold initialHookState.
    destruct (drag o r c None initialHookState e) as [st effs].
    destruct H as [[c' H]|[c' [Hacc H]]].
    + left. exists c', t. exact H.
    + right. do 3 eexists. split; [|exact H].
      intros Hi. exact (dragIndex_thumb1 o r e Hi).
  - left. exists c, t. reflexivity.
  - left. eexists. exists t. unfold hostStep. apply commit_same. reflexivity.
  - left. exists c, (t + dt)%nat. reflexivity.
Qed.

Lemma clearTimeout_own (id due : nat) :
  clearTimeout id [{| timeout_id := id; timeout_due := due |}] = [].
Proof. unfold clearTimeout. cbn. now rewrite Nat.eqb_refl. Qed.

(** The end event of the session's modality brings the controller back
    to idle: [stop] runs, the listeners go, the timeout is cleared. *)
Lemma step_session_end (b : bool) (ts : list Timeout) (c : SliderValue)
    (n t : nat) (by_ : DragModality) (i : ThumbIndex) (id : nat) (inp : Input) :
  clearTimeout id ts = [] ->
  endsSession by_ inp = true ->
  hostStep o r vm (sessionMachine b ts c n t by_ i id) inp = idleMachine c n t.
Proof.
  intros Hts Hend.
  destruct inp as [e|e|ty e|e|dt]; try (destruct by_; discriminate Hend).
  destruct by_; cbn in Hend; apply String.eqb_eq in Hend; subst ty.
  - change (hostStep o r vm (sessionMachine b ts c n t Mouse i id)
              (WindowEvent "mouseup" e))
      with (commit o (withState (sessionMachine b ts c n t Mouse i id)
                        (stop (hook (sessionMachine b ts c n t Mouse i id))) c)).
    now apply commit_stop.
  - change (hostStep o r vm (sessionMachine b ts c n t Touch i id)
              (WindowEvent "touchend" e))
      with (commit o (withState (sessionMachine b ts c n t Touch i id)
                        (stop (hook (sessionMachine b ts c n t Touch i id))) c)).
    now apply commit_stop.
Qed.

Lemma touch_is_not_mouse (e : SliderDragEvent) :
  isTouchEvent e = true -> isMouseEvent e = false.
Proof.
  unfold isTouchEvent, isMouseEvent. now destruct (drag_shape e).
Qed.

(** A move event of the session's modality re-enters [drag] through the
    registered callback and leaves the state cells alone. *)
Lemma move_in_session (b : bool) (ts : list Timeout) (c : SliderValue)
    (n t : nat) (by_ : DragModality) (i : ThumbIndex) (id : nat)
    (e : SliderDragEvent) :
  (i = Thumb1 -> thumb2Ref r <> None) ->
  isMouseEvent e = match by_ with Mouse => true | Touch => false end ->
  let '(st, effs) :=
    drag o r c (Some i)
      {| dragging := b; draggingIndex := Some i; draggingBy := Some by_ |} e in
  commit o (withState (sessionMachine b ts c n t by_ i id) st
              (applyEffects vm effs c))
  = sessionMachine b ts (applyEffects vm effs c) n t by_ i id.
Proof.
  intros H2 Hshape.
  pose proof (drag_in_session o r c b by_ i e H2 Hshape) as Hst.
  destruct (drag o r c (Some i) _ e) as [st effs]. cbn [fst] in Hst. subst st.
  apply commit_same. reflexivity.
Qed.

Lemma step_session_other (b : bool) (ts : list Timeout) (c : SliderValue)
    (n t : nat) (by_ : DragModality) (i : ThumbIndex) (id : nat) (inp : Input) :
  (i = Thumb1 -> thumb2Ref r <> None) ->
  wellTyped inp = true ->
  endsSession by_ inp = false ->
  (forall dt, inp <> Elapse dt) ->
  exists c',
    hostStep o r vm (sessionMachine b ts c n t by_ i id) inp
    = sessionMachine b ts c' n t by_ i id.
Proof.
  intros H2 Hwt Hend Hne.
  destruct inp as [e|e|ty e|e|dt].
  - eexists. unfold hostStep, handleMouseDown.
    cbn [hook sessionMachine draggingBy]. apply commit_same. reflexivity.
  - eexists. unfold hostStep, handleTouchStart.
    cbn [hook sessionMachine draggingBy]. apply commit_same. reflexivity.
  - destruct by_; cbn in Hend, Hwt.
    + destruct (String.eqb ty "mousemove") eqn:Hmove.
      * apply String.eqb_eq in Hmove. subst ty. cbn in Hwt.
        pose proof (move_in_session b ts c n t Mouse i id e H2 Hwt) as H.
        unfold hostStep, dispatch.
        cbn [listeners sessionMachine listenersFor fold_left listener_type
             listener_callback invoke hook model].
        cbn [String.eqb Ascii.eqb Bool.eqb].
        destruct (drag o r c (Some i) _ e) as [st effs].
        eexists. exact H.
      * exists c. unfold hostStep, dispatch.
        cbn [listeners sessionMachine listenersFor fold_left listener_type
             listener_callback hook model].
        rewrite (String.eqb_sym "mousemove" ty), Hmove.
        rewrite (String.eqb_sym "mouseup" ty), Hend.
        apply commit_same. reflexivity.
    + destruct (String.eqb ty "touchmove") eqn:Hmove.
      * apply String.eqb_eq in Hmove. subst ty. cbn in Hwt.
        pose proof (move_in_session b ts c n t Touch i id e H2
                      (touch_is_not_mouse e Hwt)) as H.
        unfold hostStep, dispatch.
        cbn [listeners sessionMachine listenersFor fold_left listener_type
             listener_callback invoke hook model].
        cbn [String.eqb Ascii.eqb Bool.eqb].
        destruct (drag o r c (Some i) _ e) as [st effs].
        eexists. exact H.
      * exists c. unfold hostStep, dispatch.
        cbn [listeners sessionMachine listenersFor fold_left listener_type
             listener_callback hook model].
        rewrite (String.eqb_sym "touchmove" ty), Hmove.
        rewrite (String.eqb_sym "touchend" ty), Hend.
        apply commit_same. reflexivity.
  - eexists. unfold hostStep. apply commit_same. reflexivity.
  - now destruct (Hne dt).
Qed.

(** While the timeout is pending, time either reaches its due date (it
    fires and [dragging] becomes [true]) or does not. *)
Lemma step_engaging_elapse (c : SliderValue) (n t : nat) (by_ : DragModality)
    (i : ThumbIndex) (id due dt : nat) :
  hostStep o r vm
    (sessionMachine false [{| timeout_id := id; timeout_due := due |}]
       c n t by_ i id) (Elapse dt)
  = if Nat.leb due (t + dt)
    then sessionMachine true [] c n (t + dt) by_ i id
    else sessionMachine false [{| timeout_id := id; timeout_due := due |}]
           c n (t + dt) by_ i id.
Proof.
  unfold hostStep, elapse.
  cbn [timeouts clock sessionMachine existsb filter timeout_due].
  destruct (Nat.leb due (t + dt)); cbn [orb negb];
    rewrite commit_same by reflexivity; reflexivity.
Qed.

Lemma step_dragging_elapse (c : SliderValue) (n t : nat) (by_ : DragModality)
    (i : ThumbIndex) (id dt : nat) :
  hostStep o r vm (sessionMachine true [] c n t by_ i id) (Elapse dt)
  = sessionMachine true [] c n (t + dt) by_ i id.
Proof.
  unfold hostStep. rewrite commit_same by reflexivity. reflexivity.
Qed.

(** Every host event takes a phase to a phase. *)
Lemma phase_step (m : Machine) (inp : Input) :
  Phase r m -> wellTyped inp = true -> Phase r (hostStep o r vm m inp).
Proof.
  intros Hp Hwt. destruct Hp as [c n t|c n t by_ i id due H2|c n t by_ i id H2].
  - destruct (step_from_idle c n t inp Hwt)
      as [(c' & t' & ->)|(c' & by_ & i & H2 & ->)]; now constructor.
  - destruct (endsSession by_ inp) eqn:Hend.
    + rewrite (step_session_end _ _ _ _ _ _ _ _ _ (clearTimeout_own id due) Hend).
      constructor.
    + destruct inp as [e|e|ty e|e|dt];
        try (edestruct step_session_other as [c' ->];
             [exact H2|exact Hwt|exact Hend|discriminate|now constructor]).
      rewrite step_engaging_elapse.
      destruct (Nat.leb due (t + dt)); now constructor.
  - destruct (endsSession by_ inp) eqn:Hend.
    + rewrite (step_session_end true [] c n t by_ i id inp eq_refl Hend).
      constructor.
    + destruct inp as [e|e|ty e|e|dt];
        try (edestruct step_session_other as [c' ->];
             [exact H2|exact Hwt|exact Hend|discriminate|now constructor]).
      rewrite step_dragging_elapse. now constructor.
Qed.

Lemma reachable_phase (m : Machine) : reachable o r vm m -> Phase r m.
Proof.
  induction 1 as [c|m inp Hm IH Hwt].
  - exact (Idle r c 0 0).
  - now apply phase_step.
Qed.

End HostSteps.

Section Sessions.

Variable o : SliderControlsOptions.
Variable r : Refs.
Variable vm : ValueModel.

Lemma run_dragging (mid : list Input) :
  forall (c : SliderValue) (n t : nat) (by_ : DragModality) (i : ThumbIndex)
         (id : nat),
    (i = Thumb1 -> thumb2Ref r <> None) ->
    keepsSession by_ mid ->
    exists c' t',
      run o r vm (sessionMachine true [] c n t by_ i id) mid
      = sessionMachine true [] c' n t' by_ i id.
Proof.
  induction mid as [|inp mid IH]; intros c n t by_ i id H2 Hkeep.
  - now exists c, t.
  - inversion Hkeep as [|? ? [Hwt Hend] Hrest]; subst. cbn [run fold_left].
    destruct inp as [e|e|ty e|e|dt];
      try (edestruct (step_session_other o r vm true [] c n t by_ i id)
             as [c' ->];
           [exact H2|exact Hwt|exact Hend|discriminate|now apply IH]).
    rewrite step_dragging_elapse. now apply IH.
Qed.

(** A session whose timeout has [due - t] still to go: after inputs that
    keep it going, the controller is dragging exactly when the delay
    elapsed during them. *)
Lemma run_engaging (mid : list Input) :
  forall (c : SliderValue) (n t : nat) (by_ : DragModality) (i : ThumbIndex)
         (id due : nat),
    (i = Thumb1 -> thumb2Ref r <> None) ->
    keepsSession by_ mid ->
    exists c' t',
      run o r vm
        (sessionMachine false [{| timeout_id := id; timeout_due := due |}]
           c n t by_ i id) mid
      = if delayElapses (due - t) mid
        then sessionMachine true [] c' n t' by_ i id
        else sessionMachine false [{| timeout_id := id; timeout_due := due |}]
               c' n t' by_ i id.
Proof.
  induction mid as [|inp mid IH]; intros c n t by_ i id due H2 Hkeep.
  - now exists c, t.
  - inversion Hkeep as [|? ? [Hwt Hend] Hrest]; subst. cbn [run fold_left].
    destruct inp as [e|e|ty e|e|dt];
      try (edestruct (step_session_other o r vm false
                        [{| timeout_id := id; timeout_due := due |}]
                        c n t by_ i id)
             as [c' ->];
           [exact H2|exact Hwt|exact Hend|discriminate|];
           cbn [delayElapses]; now apply IH).
    rewrite step_engaging_elapse. cbn [delayElapses].
    replace (Nat.leb (due - t) dt) with (Nat.leb due (t + dt)).
    2:{ destruct (Nat.leb_spec due (t + dt)), (Nat.leb_spec (due - t) dt);
        try reflexivity; lia. }
    destruct (Nat.leb due (t + dt)); cbn [orb].
    + destruct (run_dragging mid c n (t + dt)%nat by_ i id H2 Hrest)
        as (c' & t' & Hrun).
      exists c', t'. exact Hrun.
    + replace (due - t - dt)%nat with (due - (t + dt))%nat by lia.
      now apply IH.
Qed.

Lemma delayElapses_prefix (pre post : list Input) :
  forall d, delayElapses d (pre ++ post) = false -> delayElapses d pre = false.
Proof.
  induction pre as [|inp pre IH]; intros d H; [reflexivity|].
  destruct inp; cbn [delayElapses app] in *; try now apply IH.
  apply orb_false_iff in H. destruct H as [-> H]. now apply IH.
Qed.

(** C5: in every reachable state at most one timeout is pending, a
    pending timeout belongs to a session in progress (and [dragging] is
    still [false]), and [dragging] is [true] only inside a session.  From
    an idle state, once a pointer-down starts a session: the session
    starts with [dragging = false] and one pending timeout; if the delay
    [animationDuration] does not elapse before the end event, [dragging]
    is [false] all along; if it does elapse, [dragging] is [true] when
    the end event arrives; in both cases the end event leaves
    [dragging = false] and no pending timeout, so that no later passage
    of time sets [dragging]. *)
Theorem tap_never_drags_hold_does :
  forall (m : Machine),
    reachable o r vm m ->
    (List.length (timeouts m) <= 1)%nat /\
    (timeouts m <> [] ->
     draggingIndex (hook m) <> None /\ dragging (hook m) = false) /\
    (dragging (hook m) = true -> draggingBy (hook m) <> None) /\
    (forall (down up : Input) (mid : list Input) (by_ : DragModality),
        draggingBy (hook m) = None ->
        wellTyped down = true ->
        draggingBy (hook (hostStep o r vm m down)) = Some by_ ->
        keepsSession by_ mid ->
        endsSession by_ up = true ->
        let started := hostStep o r vm m down in
        let held := run o r vm started mid in
        let ended := hostStep o r vm held up in
        dragging (hook started) = false /\
        List.length (timeouts started) = 1%nat /\
        (delayElapses (animationDuration o) mid = false ->
         forall pre post,
           mid = pre ++ post -> dragging (hook (run o r vm started pre)) = false) /\
        (delayElapses (animationDuration o) mid = true ->
         dragging (hook held) = true) /\
        dragging (hook ended) = false /\
        timeouts ended = [] /\
        (forall dt, dragging (hook (hostStep o r vm ended (Elapse dt))) = false)).
Proof.
  intros m Hreach. apply reachable_phase in Hreach.
  split.
  { destruct Hreach as [c n t|c n t b i id due H2|c n t b i id H2]; cbn; lia. }
  split.
  { destruct Hreach as [c n t|c n t b i id due H2|c n t b i id H2]; cbn;
      intros Hne;
      [now destruct Hne|split; [discriminate|reflexivity]|now destruct Hne]. }
  split.
  { destruct Hreach as [c n t|c n t b i id due H2|c n t b i id H2]; cbn;
      intros Hd; first [discriminate Hd|discriminate]. }
  intros down up mid by_ Hidle Hwt Hstart Hkeep Hend started held ended.
  destruct Hreach as [c n t|c n t b i id due H2|c n t b i id H2];
    try discriminate Hidle.
  assert (Hst : exists c' i,
             (i = Thumb1 -> thumb2Ref r <> None) /\
             started = sessionMachine false
                         [{| timeout_id := n;
                             timeout_due := (t + animationDuration o)%nat |}]
                         c' (S n) t by_ i n).
  { unfold started in *.
    destruct (step_from_idle o r vm c n t down Hwt)
      as [(c' & t' & Heq)|(c' & b & i & H2 & Heq)]; rewrite Heq in Hstart |- *.
    - discriminate Hstart.
    - cbn in Hstart. injection Hstart as ->. now exists c', i. }
  destruct Hst as (c1 & i & H2 & Hst).
  assert (Hrun : forall ins, keepsSession by_ ins ->
             exists c' t',
               run o r vm started ins
               = if delayElapses (animationDuration o) ins
                 then sessionMachine true [] c' (S n) t' by_ i n
                 else sessionMachine false
                        [{| timeout_id := n;
                            timeout_due := (t + animationDuration o)%nat |}]
                        c' (S n) t' by_ i n).
  { intros ins Hins. rewrite Hst.
    destruct (run_engaging ins c1 (S n) t by_ i n (t + animationDuration o)%nat
                H2 Hins) as (c' & t' & Heq).
    replace (t + animationDuration o - t)%nat with (animationDuration o) in Heq by lia.
    now exists c', t'. }
  assert (Hended : exists c' t', ended = idleMachine c' (S n) t').
  { unfold ended, held. destruct (Hrun mid Hkeep) as (c' & t' & ->).
    exists c', t'.
    destruct (delayElapses (animationDuration o) mid).
    - now apply step_session_end.
    - apply step_session_end; [apply clearTimeout_own|exact Hend]. }
  split; [now rewrite Hst|]. split; [now rewrite Hst|].
  split.
  { intros Hno pre post ->.
    apply Forall_app in Hkeep. destruct Hkeep as [Hpre _].
    destruct (Hrun pre Hpre) as (c' & t' & ->).
    now rewrite (delayElapses_prefix pre post _ Hno). }
  split.
  { intros Hyes. unfold held. destruct (Hrun mid Hkeep) as (c' & t' & ->).
    now rewrite Hyes. }
  destruct Hended as (c' & t' & ->).
  repeat split.
Qed.

(** C6: in every reachable state the window listeners registered by the
    controller are exactly the move/end pair of the active modality
    (none when no modality is active, never both pairs); the end event of
    the session and an unmount both leave no listener behind. *)
Theorem listeners_follow_modality :
  forall (m : Machine),
    reachable o r vm m ->
    listeners m
    = match draggingBy (hook m) with
      | None => []
      | Some by_ => listenersFor by_ (draggingIndex (hook m))
      end /\
    map listener_type (listeners m)
    = match draggingBy (hook m) with
      | None => []
      | Some Mouse => ["mousemove"; "mouseup"]%string
      | Some Touch => ["touchmove"; "touchend"]%string
      end /\
    (listeners m <> [] <-> draggingBy (hook m) <> None) /\
    listeners (unmount m) = [] /\
    timeouts (unmount m) = [] /\
    (forall (by_ : DragModality) (up : Input),
        draggingBy (hook m) = Some by_ ->
        endsSession by_ up = true ->
        listeners (hostStep o r vm m up) = []).
Proof.
  intros m Hreach. apply reachable_phase in Hreach.
  destruct Hreach as [c n t|c n t b i id due H2|c n t b i id H2].
  - split; [reflexivity|]. split; [reflexivity|].
    split; [split; intros H; now destruct H|].
    split; [reflexivity|]. split; [reflexivity|].
    intros by_ up H. discriminate H.
  - split; [reflexivity|]. split; [destruct b; reflexivity|].
    split; [split; intros _; [discriminate|destruct b; discriminate]|].
    split; [destruct b, i; reflexivity|].
    split; [cbn; now rewrite Nat.eqb_refl|].
    intros by_ up Hby Hend. cbn in Hby. injection Hby as <-.
    now rewrite (step_session_end o r vm _ _ c n t b i id up
                   (clearTimeout_own id due) Hend).
  - split; [reflexivity|]. split; [destruct b; reflexivity|].
    split; [split; intros _; [discriminate|destruct b; discriminate]|].
    split; [destruct b, i; reflexivity|].
    split; [reflexivity|].
    intros by_ up Hby Hend. cbn in Hby. injection Hby as <-.
    now rewrite (step_session_end o r vm true [] c n t b i id up eq_refl Hend).
Qed.

(** C7: while a session has an active thumb, the registered [drag]
    callback is the one that closed over that thumb, every accepted move
    event is applied to that same thumb wherever the pointer is, and no
    host event other than the end of the session changes
    [draggingIndex]. *)
Theorem active_thumb_is_kept :
  forall (m : Machine) (i : ThumbIndex),
    reachable o r vm m ->
    draggingIndex (hook m) = Some i ->
    (forall ty seen,
        In {| listener_type := ty; listener_callback := DragCallback seen |}
           (listeners m) ->
        seen = Some i) /\
    (forall e, dragRejected o r e = false -> dragIndex o r (Some i) e = i) /\
    (forall (by_ : DragModality) (inp : Input),
        draggingBy (hook m) = Some by_ ->
        wellTyped inp = true ->
        endsSession by_ inp = false ->
        draggingIndex (hook (hostStep o r vm m inp)) = Some i).
Proof.
  intros m i Hreach Hidx. apply reachable_phase in Hreach.
  assert (Hshape : exists b ts c n t by_ id,
             (i = Thumb1 -> thumb2Ref r <> None) /\
             (ts = [] \/ exists due, ts = [{| timeout_id := id; timeout_due := due |}] /\ b = false) /\
             m = sessionMachine b ts c n t by_ i id).
  { destruct Hreach as [c n t|c n t b j id due H2|c n t b j id H2];
      cbn in Hidx; try discriminate Hidx; injection Hidx as ->.
    - exists false, [{| timeout_id := id; timeout_due := due |}], c, n, t, b, id.
      split; [exact H2|]. split; [right; now exists due|reflexivity].
    - exists true, [], c, n, t, b, id.
      split; [exact H2|]. split; [now left|reflexivity]. }
  destruct Hshape as (b & ts & c & n & t & by0 & id & H2 & Hts & ->).
  split.
  { intros ty seen Hin. cbn in Hin.
    destruct by0; cbn in Hin;
      destruct Hin as [Hin|[Hin|[]]]; congruence. }
  split.
  { intros e Hacc. apply dragIndex_in_session; [exact H2|].
    destruct (dragRejected_false _ _ _ Hacc) as (_ & _ & (tr & s1 & _ & Hs) & _).
    rewrite Hs. discriminate. }
  intros by_ inp Hby Hwt Hend. cbn in Hby. injection Hby as <-.
  destruct inp as [e|e|ty e|e|dt];
    try (edestruct (step_session_other o r vm b ts c n t by0 i id)
           as [c' ->];
         [exact H2|exact Hwt|exact Hend|discriminate|reflexivity]).
  destruct Hts as [->|(due & -> & ->)].
  - unfold hostStep, elapse. cbn [timeouts sessionMachine existsb filter hook].
    rewrite commit_same by reflexivity. reflexivity.
  - rewrite step_engaging_elapse. now destruct (Nat.leb due (t + dt)).
Qed.

End Sessions.

(** *** The theorems on a concrete slider *)

Lemma tap_never_drags_hold_does_witness :
  dragging
    (hook
       (run Scenario.options Scenario.rangeRefs Scenario.valueModel
          (initialMachine (RangeValue 20 80))
          [TrackMouseDown (Scenario.mouseAt 150);
           Elapse 100;
           WindowEvent "mousemove" (Scenario.mouseAt 120);
           Elapse 50])) = false
  /\
  dragging
    (hook
       (run Scenario.options Scenario.rangeRefs Scenario.valueModel
          (initialMachine (RangeValue 20 80))
          [TrackMouseDown (Scenario.mouseAt 150);
           Elapse 100;
           WindowEvent "mousemove" (Scenario.mouseAt 120);
           Elapse 50;
           WindowEvent "mouseup" (Scenario.mouseAt 120)])) = false.
Proof.
  assert (Hkeep : keepsSession Mouse
                    [Elapse 100; WindowEvent "mousemove" (Scenario.mouseAt 120);
                     Elapse 50]).
  { repeat constructor. }
  destruct (proj2 (proj2 (proj2
              (tap_never_drags_hold_does Scenario.options Scenario.rangeRefs
                 Scenario.valueModel (initialMachine (RangeValue 20 80))
                 (reachable_mount _ _ _ (RangeValue 20 80)))))
              (TrackMouseDown (Scenario.mouseAt 150))
              (WindowEvent "mouseup" (Scenario.mouseAt 120))
              [Elapse 100; WindowEvent "mousemove" (Scenario.mouseAt 120);
               Elapse 50]
              Mouse eq_refl eq_refl eq_refl Hkeep eq_refl)
    as (_ & _ & Htap & _ & Hend & _).
  split.
  - exact (Htap eq_refl _ [] (eq_sym (app_nil_r _))).
  - exact Hend.
Defined.

Lemma listeners_follow_modality_witness :
  map listener_type
    (listeners
       (hostStep Scenario.options Scenario.rangeRefs Scenario.valueModel
          (initialMachine (RangeValue 20 80))
          (TrackTouchStart (Scenario.touchAt 250))))
  = ["touchmove"; "touchend"]%string.
Proof.
  exact (proj1 (proj2
           (listeners_follow_modality Scenario.options Scenario.rangeRefs
              Scenario.valueModel _
              (reachable_step _ _ _ _ (TrackTouchStart (Scenario.touchAt 250))
                 (reachable_mount _ _ _ (RangeValue 20 80)) eq_refl)))).
Defined.

Lemma active_thumb_is_kept_witness :
  draggingIndex
    (hook
       (hostStep Scenario.options Scenario.rangeRefs Scenario.valueModel
          (hostStep Scenario.options Scenario.rangeRefs Scenario.valueModel
             (initialMachine (RangeValue 20 80))
             (TrackMouseDown (Scenario.mouseAt 250)))
          (WindowEvent "mousemove" (Scenario.mouseAt 20))))
  = Some Thumb1.
Proof.
  exact (proj2 (proj2
           (active_thumb_is_kept Scenario.options Scenario.rangeRefs
              Scenario.valueModel _ Thumb1
              (reachable_step _ _ _ _ (TrackMouseDown (Scenario.mouseAt 250))
                 (reachable_mount _ _ _ (RangeValue 20 80)) eq_refl)
              eq_refl))
           Mouse (WindowEvent "mousemove" (Scenario.mouseAt 20))
           eq_refl eq_refl eq_refl).
Defined.

(** A press held for the whole delay: [dragging] is [true] before the
    button is released and [false] after. *)
Example hold_sets_dragging_until_release :
  let held :=
    run Scenario.options Scenario.rangeRefs Scenario.valueModel
      (initialMachine (RangeValue 20 80))
      [TrackMouseDown (Scenario.mouseAt 150); Elapse 200] in
  dragging (hook held) = true /\
  dragging
    (hook (hostStep Scenario.options Scenario.rangeRefs Scenario.valueModel
             held (WindowEvent "mouseup" (Scenario.mouseAt 150)))) = false.
Proof.
  split; reflexivity.
Qed.

(** * Further properties of the controller *)

(** ** The track handlers and the window listeners *)

Lemma Demo_pressed_reachable :
  reachable Scenario.options Scenario.rangeRefs Scenario.valueModel Demo.pressed.
Proof.
  apply reachable_step; [apply reachable_mount|reflexivity].
Qed.

Lemma Demo_pressedSingle_reachable :
  reachable Scenario.options10 Scenario.singleRefs Scenario.valueModel
    Demo.pressedSingle.
Proof.
  apply reachable_step; [apply reachable_mount|reflexivity].
Qed.

Section MoreSessions.

Variable o : SliderControlsOptions.
Variable r : Refs.
Variable vm : ValueModel.

Lemma track_press_in_session (b : bool) (ts : list Timeout) (c : SliderValue)
    (n t : nat) (by_ : DragModality) (i : ThumbIndex) (id : nat)
    (e : SliderDragEvent) :
  hostStep o r vm (sessionMachine b ts c n t by_ i id) (TrackMouseDown e)
  = sessionMachine b ts c n t by_ i id /\
  hostStep o r vm (sessionMachine b ts c n t by_ i id) (TrackTouchStart e)
  = sessionMachine b ts c n t by_ i id.
Proof.
  split.
  - unfold hostStep, handleMouseDown. cbn [hook sessionMachine draggingBy model].
    rewrite commit_same by reflexivity.
    destruct (onMouseDown o); reflexivity.
  - unfold hostStep, handleTouchStart. cbn [hook sessionMachine draggingBy model].
    rewrite commit_same by reflexivity.
    destruct (onTouchStart o); reflexivity.
Qed.

Lemma rejected_press_from_idle (c : SliderValue) (n t : nat) (e : SliderDragEvent) :
  dragRejected o r e = true ->
  hostStep o r vm (idleMachine c n t) (TrackMouseDown e) = idleMachine c n t /\
  hostStep o r vm (idleMachine c n t) (TrackTouchStart e) = idleMachine c n t.
Proof.
  intros Hrej. split.
  - unfold hostStep, handleMouseDown.
    cbn [hook idleMachine draggingBy draggingIndex initialHookState model].
    rewrite (drag_rejected _ _ _ _ _ _ Hrej).
    rewrite commit_same by reflexivity.
    destruct (onMouseDown o); reflexivity.
  - unfold hostStep, handleTouchStart.
    cbn [hook idleMachine draggingBy draggingIndex initialHookState model].
    rewrite (drag_rejected _ _ _ _ _ _ Hrej).
    rewrite commit_same by reflexivity.
    destruct (onTouchStart o); reflexivity.
Qed.

(** X1: while a session is in progress, a mouse-down or a touch-start on
    the track does not enter [drag] again: the controller (state cells,
    listeners, pending timeout, value) is left exactly as it was, and the
    only call made is the caller's own handler. *)
Theorem track_press_during_session_is_ignored :
  forall (m : Machine) (e : SliderDragEvent),
    reachable o r vm m ->
    draggingBy (hook m) <> None ->
    hostStep o r vm m (TrackMouseDown e) = m /\
    hostStep o r vm m (TrackTouchStart e) = m /\
    snd (handleMouseDown o r (model m) (hook m) e)
    = (if onMouseDown o then [CallerOnMouseDown e] else []) /\
    snd (handleTouchStart o r (model m) (hook m) e)
    = (if onTouchStart o then [CallerOnTouchStart e] else []).
Proof.
  intros m e Hreach Hby. apply reachable_phase in Hreach.
  destruct Hreach as [c n t|c n t b i id due H2|c n t b i id H2].
  - now destruct Hby.
  - destruct (track_press_in_session false
                [{| timeout_id := id; timeout_due := due |}] c n t b i id e)
      as [Hm Ht].
    split; [exact Hm|]. split; [exact Ht|]. split; reflexivity.
  - destruct (track_press_in_session true [] c n t b i id e) as [Hm Ht].
    split; [exact Hm|]. split; [exact Ht|]. split; reflexivity.
Qed.

(** X2: while no modality is active no window event reaches the
    controller: whatever its type and content, it leaves the controller
    exactly as it was. *)
Theorem idle_ignores_window_events :
  forall (m : Machine) (ty : string) (e : SliderDragEvent),
    reachable o r vm m ->
    draggingBy (hook m) = None ->
    hostStep o r vm m (WindowEvent ty e) = m.
Proof.
  intros m ty e Hreach Hby. apply reachable_phase in Hreach.
  destruct Hreach as [c n t|c n t b i id due H2|c n t b i id H2];
    try discriminate Hby.
  reflexivity.
Qed.

Lemma foreign_window_event (b : bool) (ts : list Timeout) (c : SliderValue)
    (n t : nat) (by_ : DragModality) (i : ThumbIndex) (id : nat)
    (ty : string) (e : SliderDragEvent) :
  match by_ with
  | Mouse => ty <> "mousemove"%string /\ ty <> "mouseup"%string
  | Touch => ty <> "touchmove"%string /\ ty <> "touchend"%string
  end ->
  hostStep o r vm (sessionMachine b ts c n t by_ i id) (WindowEvent ty e)
  = sessionMachine b ts c n t by_ i id.
Proof.
  intros Hty. unfold hostStep, dispatch.
  destruct by_; destruct Hty as [H1 H2];
    apply String.eqb_neq in H1; apply String.eqb_neq in H2;
    cbn [listeners sessionMachine listenersFor fold_left listener_type
         listener_callback hook model].
  - rewrite (String.eqb_sym "mousemove" ty), H1.
    rewrite (String.eqb_sym "mouseup" ty), H2.
    apply commit_same. reflexivity.
  - rewrite (String.eqb_sym "touchmove" ty), H1.
    rewrite (String.eqb_sym "touchend" ty), H2.
    apply commit_same. reflexivity.
Qed.

(** X3: during a mouse session only [mousemove] and [mouseup] reach the
    controller, during a touch session only [touchmove] and [touchend]:
    a window event of any other type leaves the controller exactly as it
    was. *)
Theorem other_modality_events_are_ignored :
  forall (m : Machine) (by_ : DragModality) (ty : string) (e : SliderDragEvent),
    reachable o r vm m ->
    draggingBy (hook m) = Some by_ ->
    match by_ with
    | Mouse => ty <> "mousemove"%string /\ ty <> "mouseup"%string
    | Touch => ty <> "touchmove"%string /\ ty <> "touchend"%string
    end ->
    hostStep o r vm m (WindowEvent ty e) = m.
Proof.
  intros m by_ ty e Hreach Hby Hty. apply reachable_phase in Hreach.
  destruct Hreach as [c n t|c n t b i id due H2|c n t b i id H2];
    try discriminate Hby; cbn in Hby; injection Hby as ->;
    now apply foreign_window_event.
Qed.

(** X4: the modality that started a session owns it until its end event:
    no other host event changes [draggingBy]. *)
Theorem modality_is_kept :
  forall (m : Machine) (by_ : DragModality) (inp : Input),
    reachable o r vm m ->
    draggingBy (hook m) = Some by_ ->
    wellTyped inp = true ->
    endsSession by_ inp = false ->
    draggingBy (hook (hostStep o r vm m inp)) = Some by_.
Proof.
  intros m by_ inp Hreach Hby Hwt Hend. apply reachable_phase in Hreach.
  destruct Hreach as [c n t|c n t b i id due H2|c n t b i id H2];
    try discriminate Hby; cbn in Hby; injection Hby as ->.
  - destruct inp as [e|e|ty e|e|dt];
      try (edestruct (step_session_other o r vm false
                        [{| timeout_id := id; timeout_due := due |}]
                        c n t by_ i id) as [c' ->];
           [exact H2|exact Hwt|exact Hend|discriminate|reflexivity]).
    rewrite step_engaging_elapse. now destruct (Nat.leb due (t + dt)).
  - destruct inp as [e|e|ty e|e|dt];
      try (edestruct (step_session_other o r vm true [] c n t by_ i id)
             as [c' ->];
           [exact H2|exact Hwt|exact Hend|discriminate|reflexivity]).
    now rewrite step_dragging_elapse.
Qed.

(** X5: a press on the track that [drag] rejects (modifier held,
    disabled, element missing, wrong button) leaves the controller
    exactly as it was, idle or not. *)
Theorem rejected_press_changes_nothing :
  forall (m : Machine) (e : SliderDragEvent),
    reachable o r vm m ->
    dragRejected o r e = true ->
    hostStep o r vm m (TrackMouseDown e) = m /\
    hostStep o r vm m (TrackTouchStart e) = m.
Proof.
  intros m e Hreach Hrej. apply reachable_phase in Hreach.
  destruct Hreach as [c n t|c n t b i id due H2|c n t b i id H2].
  - now apply rejected_press_from_idle.
  - apply track_press_in_session.
  - apply track_press_in_session.
Qed.

Lemma accepted_press_from_idle (c c' : SliderValue) (n t : nat)
    (e : SliderDragEvent) :
  dragRejected o r e = false ->
  commit o (withState (idleMachine c n t)
              (fst (drag o r c None initialHookState e)) c')
  = sessionMachine false
      [{| timeout_id := n; timeout_due := (t + animationDuration o)%nat |}]
      c' (S n) t (if isMouseEvent e then Mouse else Touch)
      (dragIndex o r None e) n.
Proof.
  intros Hacc. rewrite (drag_from_idle o r c initialHookState e Hacc eq_refl).
  apply commit_start.
Qed.

(** X6: from idle, an accepted press on the track starts a session: the
    active thumb is the one [drag] selects, the modality is that of the
    event, [dragging] is still [false], the listeners of that modality
    are registered, and exactly one timeout is pending, due
    [animationDuration] after the press. *)
Theorem accepted_press_starts_session :
  forall (m : Machine) (e : SliderDragEvent),
    reachable o r vm m ->
    draggingBy (hook m) = None ->
    dragRejected o r e = false ->
    let by_ := if isMouseEvent e then Mouse else Touch in
    let i := dragIndex o r None e in
    forall m',
      m' = hostStep o r vm m (TrackMouseDown e) \/
      m' = hostStep o r vm m (TrackTouchStart e) ->
      hook m' = {| dragging := false; draggingIndex := Some i;
                   draggingBy := Some by_ |} /\
      listeners m' = listenersFor by_ (Some i) /\
      timeouts m'
      = [{| timeout_id := nextTimeout m;
            timeout_due := (clock m + animationDuration o)%nat |}].
Proof.
  intros m e Hreach Hby Hacc by_ i m' Hm'. apply reachable_phase in Hreach.
  destruct Hreach as [c n t|c n t b j id due H2|c n t b j id H2];
    try discriminate Hby.
  assert (Hshape : exists c',
             m' = sessionMachine false
                    [{| timeout_id := n;
                        timeout_due := (t + animationDuration o)%nat |}]
                    c' (S n) t by_ i n).
  { destruct Hm' as [->| ->].
    - unfold hostStep, handleMouseDown.
      cbn [hook idleMachine draggingBy draggingIndex initialHookState model].
      fold initialHookState.
      pose proof (fun c' => accepted_press_from_idle c c' n t e Hacc) as H.
      destruct (drag o r c None initialHookState e) as [st effs].
      eexists. apply H.
    - unfold hostStep, handleTouchStart.
      cbn [hook idleMachine draggingBy draggingIndex initialHookState model].
      fold initialHookState.
      pose proof (fun c' => accepted_press_from_idle c c' n t e Hacc) as H.
      destruct (drag o r c None initialHookState e) as [st effs].
      eexists. apply H. }
  destruct Hshape as [c' ->]. repeat split.
Qed.

(** X7: whenever no modality is active once a host event has been
    processed, the controller is as freshly mounted in everything but its
    value, the clock and the timer ids handed out: no active thumb,
    [dragging] false, no window listener, no pending timeout and no
    cleanup left to run. *)
Theorem idle_is_as_mounted :
  forall (m : Machine),
    reachable o r vm m ->
    draggingBy (hook m) = None ->
    m = idleMachine (model m) (nextTimeout m) (clock m).
Proof.
  intros m Hreach Hby. apply reachable_phase in Hreach.
  destruct Hreach as [c n t|c n t b i id due H2|c n t b i id H2];
    try discriminate Hby.
  reflexivity.
Qed.

(** X8: on a slider without a second thumb, thumb 1 is never the active
    thumb. *)
Theorem single_thumb_never_selects_thumb1 :
  forall (m : Machine),
    thumb2Ref r = None ->
    reachable o r vm m ->
    draggingIndex (hook m) <> Some Thumb1.
Proof.
  intros m Hnone Hreach. apply reachable_phase in Hreach.
  destruct Hreach as [c n t|c n t b i id due H2|c n t b i id H2]; cbn;
    [discriminate| |];
    intros Hi; injection Hi as ->; now destruct (H2 eq_refl).
Qed.



(** X11: a key press on a thumb goes to the value model only: the state
    cells, the window listeners and the pending timeout are left as they
    were, in a session or not. *)
Theorem key_press_leaves_session_alone :
  forall (m : Machine) (e : KeyboardEvent),
    reachable o r vm m ->
    hostStep o r vm m (ThumbKeyDown e)
    = withState m (hook m)
        (applyEffects vm (handleKeyDown o r (model m) e) (model m)).
Proof.
  intros m e Hreach. apply reachable_phase in Hreach.
  unfold hostStep. apply commit_same.
  destruct Hreach; reflexivity.
Qed.

End MoreSessions.

(** ** The calls of an accepted drag event *)

(** X12: an accepted drag event calls [stopPropagation] and, as its last
    call, [setValue] exactly once (with an updater function on a range
    slider, with a literal on a single-value slider); it calls
    [preventDefault] first unless it is a touch event, which is never
    default-prevented; the only other call it can make is one [focus]. *)
Theorem accepted_drag_calls :
  forall (o : SliderControlsOptions) (r : Refs) (c : SliderValue)
         (seen : SliderThumbIndex) (st : HookState) (e : SliderDragEvent),
    dragRejected o r e = false ->
    exists (foc : list Effect) (a : SetValueArg),
      snd (drag o r c seen st e)
      = (if isTouchEvent e then [] else [PreventDefault])
        ++ StopPropagation :: foc ++ [SetValue a] /\
      (foc = [] \/ exists n, foc = [Focus n]) /\
      match a with
      | Updater _ => isRangeSlider c = true
      | Literal _ => isRangeSlider c = false
      end.
Proof.
  intros o r c seen st e Hacc. unfold drag. rewrite Hacc.
  destruct (dragRejected_false _ _ _ Hacc) as (_ & _ & (t & s1 & Ht & Hs) & _).
  rewrite Ht, Hs. destruct (pointerOf e) as [cx cy]. cbn [snd].
  set (i := selectThumb _ _ _ _ _ _).
  exists (if indexDiffers seen i then [Focus (node (sliderOf i s1 (thumb2Ref r)))]
          else []).
  eexists. split; [reflexivity|]. split.
  - destruct (indexDiffers seen i); [right; eexists; reflexivity|now left].
  - destruct (isRangeSlider c); reflexivity.
Qed.

Lemma accepted_drag_calls_witness :
  exists (foc : list Effect) (a : SetValueArg),
    snd (drag Scenario.options Scenario.rangeRefs (RangeValue 20 80) None
           initialHookState (Scenario.touchAt 150))
    = StopPropagation :: foc ++ [SetValue a].
Proof.
  destruct (accepted_drag_calls Scenario.options Scenario.rangeRefs
              (RangeValue 20 80) None initialHookState (Scenario.touchAt 150)
              eq_refl) as (foc & a & H & _).
  exists foc, a. exact H.
Defined.

(** X13: [drag] moves the input focus only when it selects a thumb: the
    press that starts a session focuses the element of the selected
    thumb, and a move inside the session (the callback that saw the
    active thumb) focuses nothing. *)
Theorem focus_only_on_selection :
  forall (o : SliderControlsOptions) (r : Refs) (c : SliderValue)
         (st : HookState) (e : SliderDragEvent) (s1 : Element),
    dragRejected o r e = false ->
    thumb1Ref r = Some s1 ->
    In (Focus (node (sliderOf (dragIndex o r None e) s1 (thumb2Ref r))))
       (snd (drag o r c None st e)) /\
    (forall i n,
        (i = Thumb1 -> thumb2Ref r <> None) ->
        ~ In (Focus n) (snd (drag o r c (Some i) st e))).
Proof.
  intros o r c st e s1 Hacc Hs.
  destruct (dragRejected_false _ _ _ Hacc) as (_ & _ & (t & s1' & Ht & Hs') & _).
  split.
  - unfold drag, dragIndex. rewrite Hacc, Ht, Hs.
    destruct (pointerOf e) as [cx cy]. cbn [snd indexDiffers].
    apply in_or_app. right. apply in_or_app. right.
    apply in_or_app. left. now left.
  - intros i n H2.
    assert (Hi : dragIndex o r (Some i) e = i).
    { apply dragIndex_in_session; [exact H2|]. rewrite Hs. discriminate. }
    unfold drag. unfold dragIndex in Hi. rewrite Hacc, Ht, Hs. rewrite Hs in Hi.
    destruct (pointerOf e) as [cx cy]. rewrite Hi. cbn [snd].
    assert (Hsame : indexDiffers (Some i) i = false) by (now destruct i).
    rewrite Hsame. intros Hin.
    apply in_app_or in Hin. destruct Hin as [Hin|Hin].
    + destruct (isTouchEvent e); [destruct Hin|].
      destruct Hin as [Hin|[]]. discriminate Hin.
    + destruct Hin as [Hin|[Hin|[]]]; discriminate Hin.
Qed.

Lemma focus_only_on_selection_witness :
  In (Focus (node Scenario.thumb2))
     (snd (drag Scenario.options Scenario.rangeRefs (RangeValue 20 80) None
             initialHookState (Scenario.mouseAt 250))) /\
  ~ In (Focus (node Scenario.thumb2))
       (snd (drag Scenario.options Scenario.rangeRefs (RangeValue 20 80)
               (Some Thumb1) (hook Demo.pressed) (Scenario.mouseAt 260))).
Proof.
  split.
  - exact (proj1 (focus_only_on_selection Scenario.options Scenario.rangeRefs
                    (RangeValue 20 80) initialHookState (Scenario.mouseAt 250)
                    Scenario.thumb1 eq_refl eq_refl)).
  - apply (proj2 (focus_only_on_selection Scenario.options Scenario.rangeRefs
                    (RangeValue 20 80) (hook Demo.pressed) (Scenario.mouseAt 260)
                    Scenario.thumb1 eq_refl eq_refl)).
    intros _. discriminate.
Defined.

(** X14: when the two thumbs of a range slider sit at the same
    coordinate, a press that starts a session selects thumb 1 wherever
    the pointer is: thumb 0 cannot be picked up with the pointer. *)
Theorem stacked_thumbs_select_thumb1 :
  forall (o : SliderControlsOptions) (r : Refs) (c : SliderValue)
         (st : HookState) (e : SliderDragEvent) (s1 s2 : Element),
    dragRejected o r e = false ->
    thumb1Ref r = Some s1 ->
    thumb2Ref r = Some s2 ->
    draggingIndex st = None ->
    thumbCoord o s1 == thumbCoord o s2 ->
    draggingIndex (fst (drag o r c (draggingIndex st) st e)) = Some Thumb1.
Proof.
  intros o r c st e s1 s2 Hacc H1 H2 Hnone Hsame.
  rewrite drag_sets_index by exact Hacc.
  unfold dragIndex. rewrite H1, H2, Hnone.
  unfold thumbCoord in Hsame. unfold selectThumb.
  destruct (pointerOf e) as [cx cy].
  destruct (vertical o).
  - assert (Hle : Qabs (cy - rect_y (getBoundingClientRect s2))
                  <= Qabs (cy - rect_y (getBoundingClientRect s1))).
    { rewrite Hsame. apply Qle_refl. }
    apply Qltb_false in Hle. now rewrite Hle.
  - assert (Hle : Qabs (cx - rect_x (getBoundingClientRect s2))
                  <= Qabs (cx - rect_x (getBoundingClientRect s1))).
    { rewrite Hsame. apply Qle_refl. }
    apply Qltb_false in Hle. now rewrite Hle.
Qed.

Lemma stacked_thumbs_select_thumb1_witness :
  draggingIndex
    (fst (drag Scenario.options
            {| trackRef := Some Scenario.track;
               thumb1Ref := Some (Scenario.thumbAt 1 0);
               thumb2Ref := Some (Scenario.thumbAt 2 0) |}
            (RangeValue 0 0) None initialHookState (Scenario.mouseAt 150)))
  = Some Thumb1.
Proof.
  apply (stacked_thumbs_select_thumb1 Scenario.options
           {| trackRef := Some Scenario.track;
              thumb1Ref := Some (Scenario.thumbAt 1 0);
              thumb2Ref := Some (Scenario.thumbAt 2 0) |}
           (RangeValue 0 0) initialHookState (Scenario.mouseAt 150)
           (Scenario.thumbAt 1 0) (Scenario.thumbAt 2 0)
           eq_refl eq_refl eq_refl eq_refl).
  reflexivity.
Defined.

(** ** The key tables and the switches *)

(** X15: [handleKeyDown] never suppresses a key without stepping: either
    it makes no call beyond the caller's handler, or it calls
    [preventDefault], [stopPropagation] and exactly one stepping
    primitive (every key of [VALID_KEYS] has a case in the switch). *)
Theorem handled_key_always_steps :
  forall (o : SliderControlsOptions) (r : Refs) (c : SliderValue)
         (e : KeyboardEvent),
    let pre := if onKeyDown o then [CallerOnKeyDown e] else [] in
    handleKeyDown o r c e = pre \/
    exists op,
      KeyBinding (key e) op /\
      handleKeyDown o r c e
      = pre ++ [PreventDefault; StopPropagation; StepCall op (keyIndex r c e)].
Proof.
  intros o r c e pre. unfold handleKeyDown. fold pre.
  destruct (altKey (key_mods e) || ctrlKey (key_mods e) || metaKey (key_mods e)
            || shiftKey (key_mods e) || disabled o) eqn:Hg;
    cbn [orb]; [left; apply app_nil_r|].
  destruct (includes VALID_KEYS (key e)) eqn:Hin; cbn [negb];
    [|left; apply app_nil_r].
  right. destruct (includes_KeyBinding _ Hin) as [op Hop].
  exists op. split; [exact Hop|].
  destruct (KeyBinding_includes _ _ Hop) as [_ ->]. reflexivity.
Qed.

(** X16: the same holds for the variant with its six keys: a key is
    either passed over, or default-prevented, stopped and answered by
    exactly one of [increment], [decrement], [minimum], [maximum]. *)
Theorem variant_handled_key_always_steps :
  forall (o : SliderControlsOptions) (r : Refs) (c : SliderValue)
         (e : KeyboardEvent),
    let pre := if onKeyDown o then [CallerOnKeyDown e] else [] in
    Variant.handleKeyDown o r c e = pre \/
    exists op,
      KeyBinding (key e) op /\
      (op = Increment \/ op = Decrement \/ op = Minimum \/ op = Maximum) /\
      Variant.handleKeyDown o r c e
      = pre ++ [PreventDefault; StopPropagation;
                StepCall op (Variant.keyIndex r c e)].
Proof.
  intros o r c e pre. unfold Variant.handleKeyDown. fold pre.
  destruct (altKey (key_mods e) || ctrlKey (key_mods e) || metaKey (key_mods e)
            || shiftKey (key_mods e) || disabled o) eqn:Hg;
    cbn [orb]; [left; apply app_nil_r|].
  destruct (includes Variant.VALID_KEYS (key e)) eqn:Hin; cbn [negb];
    [|left; apply app_nil_r].
  right. unfold includes, Variant.VALID_KEYS in Hin. cbn [existsb] in Hin.
  repeat (apply orb_true_iff in Hin; destruct Hin as [Hin|Hin]);
    try discriminate Hin;
    apply String.eqb_eq in Hin; rewrite Hin;
    eexists; (split; [constructor|]); (split; [|reflexivity]); tauto.
Qed.

(** X17: the variant ignores PageUp and PageDown, like any key outside
    its table, and like every key pressed with a modifier or while
    disabled: only the caller's handler is called. *)
Theorem variant_ignores_page_keys :
  forall (o : SliderControlsOptions) (r : Refs) (c : SliderValue)
         (e : KeyboardEvent),
    (key e = "PageUp"%string \/ key e = "PageDown"%string \/
     (forall op, ~ KeyBinding (key e) op) \/
     anyModifier (key_mods e) = true \/
     disabled o = true) ->
    Variant.handleKeyDown o r c e
    = if onKeyDown o then [CallerOnKeyDown e] else [].
Proof.
  intros o r c e H. unfold Variant.handleKeyDown.
  assert (Hguard :
            altKey (key_mods e) || ctrlKey (key_mods e) || metaKey (key_mods e)
            || shiftKey (key_mods e) || disabled o
            || negb (includes Variant.VALID_KEYS (key e)) = true).
  { destruct H as [H|[H|[H|[H|H]]]].
    - rewrite H. apply orb_true_r.
    - rewrite H. apply orb_true_r.
    - destruct (includes Variant.VALID_KEYS (key e)) eqn:E; [|apply orb_true_r].
      assert (E' : includes VALID_KEYS (key e) = true).
      { rewrite includes_variant, E. reflexivity. }
      destruct (includes_KeyBinding _ E') as [op Hop]. now destruct (H op).
    - unfold anyModifier in H. rewrite H. reflexivity.
    - rewrite H. rewrite orb_true_r. reflexivity. }
  rewrite Hguard. apply app_nil_r.
Qed.

Lemma variant_ignores_page_keys_witness :
  Variant.handleKeyDown Scenario.options Scenario.rangeRefs (RangeValue 20 80)
    (Scenario.keyOn Scenario.thumb2 "PageDown")
  = [CallerOnKeyDown (Scenario.keyOn Scenario.thumb2 "PageDown")].
Proof.
  apply (variant_ignores_page_keys Scenario.options Scenario.rangeRefs
           (RangeValue 20 80) (Scenario.keyOn Scenario.thumb2 "PageDown")).
  right. left. reflexivity.
Defined.

(** *** The further properties on the concrete sliders *)

Lemma track_press_during_session_is_ignored_witness :
  hostStep Scenario.options Scenario.rangeRefs Scenario.valueModel
    Demo.pressed (TrackTouchStart (Scenario.touchAt 100))
  = Demo.pressed.
Proof.
  refine (proj1 (proj2
            (track_press_during_session_is_ignored Scenario.options
               Scenario.rangeRefs Scenario.valueModel Demo.pressed
               (Scenario.touchAt 100) Demo_pressed_reachable _))).
  vm_compute. discriminate.
Defined.

Lemma idle_ignores_window_events_witness :
  hostStep Scenario.options Scenario.rangeRefs Scenario.valueModel
    Demo.mounted (WindowEvent "mousemove" (Scenario.mouseAt 100))
  = Demo.mounted.
Proof.
  apply (idle_ignores_window_events Scenario.options Scenario.rangeRefs
           Scenario.valueModel Demo.mounted "mousemove"
           (Scenario.mouseAt 100)).
  - apply reachable_mount.
  - reflexivity.
Defined.

Lemma other_modality_events_are_ignored_witness :
  hostStep Scenario.options Scenario.rangeRefs Scenario.valueModel
    Demo.pressed (WindowEvent "touchend" (Scenario.touchAt 100))
  = Demo.pressed.
Proof.
  apply (other_modality_events_are_ignored Scenario.options Scenario.rangeRefs
           Scenario.valueModel Demo.pressed Mouse "touchend"
           (Scenario.touchAt 100)).
  - exact Demo_pressed_reachable.
  - reflexivity.
  - split; discriminate.
Defined.

Lemma modality_is_kept_witness :
  draggingBy
    (hook (hostStep Scenario.options Scenario.rangeRefs Scenario.valueModel
             Demo.pressed (TrackTouchStart (Scenario.touchAt 100))))
  = Some Mouse.
Proof.
  apply (modality_is_kept Scenario.options Scenario.rangeRefs
           Scenario.valueModel Demo.pressed Mouse
           (TrackTouchStart (Scenario.touchAt 100))).
  - exact Demo_pressed_reachable.
  - reflexivity.
  - reflexivity.
  - reflexivity.
Defined.

Lemma rejected_press_changes_nothing_witness :
  hostStep Scenario.options Scenario.rangeRefs Scenario.valueModel
    Demo.mounted (TrackMouseDown (Scenario.shiftMouseAt 150))
  = Demo.mounted.
Proof.
  refine (proj1 (rejected_press_changes_nothing Scenario.options
                   Scenario.rangeRefs Scenario.valueModel Demo.mounted
                   (Scenario.shiftMouseAt 150) _ _)).
  - apply reachable_mount.
  - reflexivity.
Defined.

Lemma accepted_press_starts_session_witness :
  hook Demo.pressed
  = {| dragging := false; draggingIndex := Some Thumb1;
       draggingBy := Some Mouse |} /\
  timeouts Demo.pressed = [{| timeout_id := 0; timeout_due := 200 |}].
Proof.
  destruct (accepted_press_starts_session Scenario.options Scenario.rangeRefs
              Scenario.valueModel Demo.mounted (Scenario.mouseAt 250)
              (reachable_mount _ _ _ _) eq_refl eq_refl
              Demo.pressed (or_introl eq_refl))
    as (Hhook & _ & Htimeouts).
  split; [exact Hhook|exact Htimeouts].
Defined.

Lemma idle_is_as_mounted_witness :
  hostStep Scenario.options Scenario.rangeRefs Scenario.valueModel
    Demo.pressed (WindowEvent "mouseup" (Scenario.mouseAt 250))
  = idleMachine (model Demo.pressed) 1 0.
Proof.
  refine (idle_is_as_mounted Scenario.options Scenario.rangeRefs
            Scenario.valueModel _
            (reachable_step _ _ _ _
               (WindowEvent "mouseup" (Scenario.mouseAt 250))
               Demo_pressed_reachable eq_refl) _).
  reflexivity.
Defined.

Lemma single_thumb_never_selects_thumb1_witness :
  draggingIndex (hook Demo.pressedSingle) <> Some Thumb1.
Proof.
  apply (single_thumb_never_selects_thumb1 Scenario.options10
           Scenario.singleRefs Scenario.valueModel Demo.pressedSingle).
  - reflexivity.
  - exact Demo_pressedSingle_reachable.
Defined.



Lemma key_press_leaves_session_alone_witness :
  hook (hostStep Scenario.options Scenario.rangeRefs Scenario.valueModel
          Demo.pressed (ThumbKeyDown (Scenario.keyOn Scenario.thumb2 "End")))
  = hook Demo.pressed.
Proof.
  rewrite (key_press_leaves_session_alone Scenario.options Scenario.rangeRefs
             Scenario.valueModel Demo.pressed
             (Scenario.keyOn Scenario.thumb2 "End") Demo_pressed_reachable).
  reflexivity.
Defined.

(** ** Moves that the guard rejects *)




(** ** The end of a session render by render *)



